(* Verification of the coordination and caching core of trail-counter-react:
   the TTL cache of TrailManagerDO, the analytics aggregation of
   StatisticsService, the paginated registration view, the debounced
   cache invalidation of RegistrationService, the registration delete path
   and the trail listing of TrailService. *)

From stdpp Require Import base gmap strings list pretty.
From Stdlib Require Import ZArith QArith Lia.
Open Scope Z_scope.

(* ===================================================================== *)
(* TTL cache (src/workers/durable-objects/trail-manager.ts)              *)
(* ===================================================================== *)

Module TTLCache.

(* interface CacheEntry<T> { data: T; expires: number } *)
Record CacheEntry (A : Type) := { data : A; expires : Z }.
Arguments data {A}. Arguments expires {A}.

(* private cache: Map<string, CacheEntry<any>>.  Map iteration order is
   irrelevant to the operations below, so a gmap is used. *)
Abbreviation Cache A := (gmap string (CacheEntry A)).

Section Cache.
Context {A : Type}.

(* getFromCache(key): read at clock value [now] (Date.now()); returns the
   value and the updated table (lazy expiry deletes the entry). *)
Definition getFromCache (now : Z) (key : string) (c : Cache A)
    : option A * Cache A :=
  match c !! key with
  | None => (None, c)
  | Some entry =>
      if Z.ltb (expires entry) now          (* Date.now() > entry.expires *)
      then (None, delete key c)
      else (Some (data entry), c)
  end.

(* setInCache(key, data, ttlMs) at clock value [now] *)
Definition setInCache (now : Z) (key : string) (d : A) (ttlMs : Z)
    (c : Cache A) : Cache A :=
  <[key := {| data := d; expires := now + ttlMs |}]> c.

(* invalidateCache(keyPrefix): delete every key with key.startsWith(prefix).
   Deleting from a JS Map during its own key iteration visits every key
   present at the start that is not yet deleted, so the loop is a filter. *)
Definition invalidateCache (keyPrefix : string) (c : Cache A) : Cache A :=
  filter (fun kv : string * CacheEntry A => String.prefix keyPrefix kv.1 = false) c.

(* setupCacheCleanup: the periodic sweep *)
Definition cleanup (now : Z) (c : Cache A) : Cache A :=
  filter (fun kv : string * CacheEntry A => Z.ltb (expires kv.2) now = false) c.

End Cache.
End TTLCache.

(* ===================================================================== *)
(* Exceptions, actor responses and the manager's storage                 *)
(* ===================================================================== *)

Module Js.

(* A computation that may throw (async functions reject with the error). *)
Definition Exc (A : Type) := (string + A)%type.
Definition ret {A} (a : A) : Exc A := inr a.
Definition throw {A} (e : string) : Exc A := inl e.
Definition bind {A B} (m : Exc A) (k : A -> Exc B) : Exc B :=
  match m with inl e => inl e | inr a => k a end.
Notation "'let!' x := m 'in' k" := (bind m (fun x => k))
  (at level 200, x name, m at level 100, k at level 200).

(* try { m } catch (error) { h(error) } *)
Definition try_catch {A} (m : Exc A) (h : string -> A) : Exc A :=
  match m with inl e => inr (h e) | inr a => inr a end.

(* Promise.all: resolves with all results in input order, or rejects with
   the first rejection. *)
Fixpoint promise_all {A} (ps : list (Exc A)) : Exc (list A) :=
  match ps with
  | [] => ret []
  | p :: ps' => let! a := p in let! r := promise_all ps' in ret (a :: r)
  end.

(* A Response of a Durable Object fetch: its status and its body, which
   response.json() parses ([None]: the body is not valid JSON). *)
Record Response (D : Type) := { status : Z; body : option D }.
Arguments status {D}. Arguments body {D}.

Definition json {D} (r : Response D) : Exc D :=
  match body r with Some d => ret d | None => throw "SyntaxError" end.

(* key.substring(n) *)
Fixpoint substring_from (n : nat) (s : string) : string :=
  match n, s with
  | O, _ => s
  | S n', EmptyString => EmptyString
  | S n', String _ s' => substring_from n' s'
  end.

(* str.padStart(2, '0') *)
Definition padStart2 (s : string) : string :=
  if (String.length s <? 2)%nat then ("0" ++ s)%string else s.

(* String.prototype.localeCompare, as character-code order.  This agrees
   with the locale collation on the time keys compared here (digits, 'W'
   and '-' at fixed positions); it does not model the collation in general
   (e.g. case is compared by code, where the collation ignores it at
   first), so no result below depends on the order it gives to other
   strings such as client-supplied timestamps. *)
Definition localeCompare (a b : string) : comparison := String.compare a b.

(* Array.prototype.sort with a comparator, as an insertion sort.  It agrees
   with the (stable) JS sort when no two elements compare equal, as for the
   distinct time keys sorted by processRegistrations; on ties it puts the
   later element first, so results that use it on rows that may tie (the
   pagination sort) depend only on it being a permutation. *)
Fixpoint insert_by {A} (cmp : A -> A -> comparison) (x : A) (l : list A) : list A :=
  match l with
  | [] => [x]
  | y :: ys => match cmp x y with Lt => x :: y :: ys | _ => y :: insert_by cmp x ys end
  end.
Fixpoint sort_by {A} (cmp : A -> A -> comparison) (l : list A) : list A :=
  match l with [] => [] | x :: xs => insert_by cmp x (sort_by cmp xs) end.

(* A JavaScript Map<string, V> as an insertion-ordered association list. *)
Definition map_has {V} (k : string) (m : list (string * V)) : bool :=
  existsb (fun kv => String.eqb kv.1 k) m.
Definition map_get {V} (k : string) (m : list (string * V)) : option V :=
  snd <$> List.find (fun kv => String.eqb kv.1 k) m.
(* map.set(k, v): replace in place, or append a new key at the end *)
Definition map_set {V} (k : string) (v : V) (m : list (string * V)) : list (string * V) :=
  if map_has k m then map (fun kv => if String.eqb kv.1 k then (k, v) else kv) m
  else m ++ [(k, v)].

End Js.

(* Documents held by the entity actors (durable-objects/registration.ts,
   durable-objects/auth.ts TrailData).  Absent or falsy optional fields are
   the empty string or 0, as the code only tests them for truthiness. *)
Module Docs.
Record RegistrationData := {
  id : string; trailId : string; riderName : string;
  timestamp : string; horseCount : Z }.
Record TrailData := { name : string; active : option bool }.
End Docs.

(* ===================================================================== *)
(* Analytics grouping (StatisticsService.processRegistrations)           *)
(* ===================================================================== *)

Module Analytics.
Import Js.

Record ProcessedRegistration := {
  pr_id : string; pr_trailId : string; trailName : string;
  horseCount : Z; timestamp : string; date : string;
  weekKey : string; weekLabel : string; monthKey : string; monthLabel : string }.

(* { horseCount, registrationCount } of a per-trail breakdown *)
Record TrailCount := { tc_horseCount : Z; tc_registrationCount : Z }.

(* AnalyticsTimeEntry (src/lib/api.ts).  A Record<string, ...> built by
   assigning the keys of a Map in order is kept as an association list in
   that order. *)
Record AnalyticsTimeEntry := {
  timeKey : string; label : string; totalHorses : Z; totalRegistrations : Z;
  byTrail : list (string * TrailCount) }.

Record TrailSummary := {
  ts_totalHorses : Z; ts_totalRegistrations : Z;
  averageHorsesPerRegistration : Q }.

(* The four groupings returned by processRegistrations. *)
Record Groupings := {
  daily : list AnalyticsTimeEntry; weekly : list AnalyticsTimeEntry;
  monthly : list AnalyticsTimeEntry; byTrailSummary : list (string * TrailSummary) }.

(* { entries, weekLabel/monthLabel, byTrail: Map<trailName, {entries}> } *)
Record Group := {
  entries : list ProcessedRegistration; glabel : string;
  gbyTrail : list (string * list ProcessedRegistration) }.

(* map.get(k)!.entries.push(reg), the key being present *)
Definition push_entry (k : string) (reg : ProcessedRegistration)
    (m : list (string * list ProcessedRegistration)) :=
  let m1 := if map_has k m then m else map_set k [] m in
  map (fun kv => if String.eqb kv.1 k then (kv.1, kv.2 ++ [reg]) else kv) m1.

(* One iteration of the grouping loop on a time grouping keyed by [k]. *)
Definition add_to_group (k lbl : string) (reg : ProcessedRegistration)
    (gs : list (string * Group)) : list (string * Group) :=
  let gs1 := if map_has k gs then gs
             else map_set k {| entries := []; glabel := lbl; gbyTrail := [] |} gs in
  map (fun kg =>
         if String.eqb kg.1 k then
           (kg.1, {| entries := entries kg.2 ++ [reg];
                     glabel := glabel kg.2;
                     gbyTrail := push_entry (trailName reg) reg (gbyTrail kg.2) |})
         else kg) gs1.

Definition sum_horses (es : list ProcessedRegistration) : Z :=
  fold_left (fun s r => s + horseCount r) es 0.

(* .map(([key, data]) => ({ timeKey, label, totalHorses, ... })) *)
Definition to_time_entry (use_key_as_label : bool) (kg : string * Group)
    : AnalyticsTimeEntry :=
  {| timeKey := kg.1;
     label := if use_key_as_label then kg.1 else glabel kg.2;
     totalHorses := sum_horses (entries kg.2);
     totalRegistrations := Z.of_nat (length (entries kg.2));
     byTrail := map (fun te => (te.1, {| tc_horseCount := sum_horses te.2;
                                         tc_registrationCount := Z.of_nat (length te.2) |}))
                    (gbyTrail kg.2) |}.

(* .sort((a, b) => a.timeKey.localeCompare(b.timeKey)) *)
Definition sort_by_timeKey (l : list AnalyticsTimeEntry) : list AnalyticsTimeEntry :=
  sort_by (fun a b => localeCompare (timeKey a) (timeKey b)) l.

Definition trail_summary (es : list ProcessedRegistration) : TrailSummary :=
  let h := sum_horses es in
  let n := Z.of_nat (length es) in
  {| ts_totalHorses := h; ts_totalRegistrations := n;
     averageHorsesPerRegistration :=
       if Z.ltb 0 n then (inject_Z h / inject_Z n)%Q else 0%Q |}.

Record LoopState := {
  dailyGroups : list (string * Group); weeklyGroups : list (string * Group);
  monthlyGroups : list (string * Group);
  trailGroups : list (string * list ProcessedRegistration) }.

Definition loop_step (st : LoopState) (reg : ProcessedRegistration) : LoopState :=
  {| dailyGroups := add_to_group (date reg) "" reg (dailyGroups st);
     weeklyGroups := add_to_group (weekKey reg) (weekLabel reg) reg (weeklyGroups st);
     monthlyGroups := add_to_group (monthKey reg) (monthLabel reg) reg (monthlyGroups st);
     trailGroups := push_entry (trailName reg) reg (trailGroups st) |}.

Definition processRegistrations (registrations : list ProcessedRegistration) : Groupings :=
  let st := fold_left loop_step registrations
              {| dailyGroups := []; weeklyGroups := []; monthlyGroups := []; trailGroups := [] |} in
  {| daily := sort_by_timeKey (map (to_time_entry true) (dailyGroups st));
     weekly := sort_by_timeKey (map (to_time_entry false) (weeklyGroups st));
     monthly := sort_by_timeKey (map (to_time_entry false) (monthlyGroups st));
     byTrailSummary := map (fun te => (te.1, trail_summary te.2)) (trailGroups st) |}.

(* `${year}-W${weekNum}` and `${year} Week ${weekNum}` *)
Definition mkWeekKey (year weekNum : Z) : string :=
  (pretty year ++ "-W" ++ pretty weekNum)%string.
Definition mkWeekLabel (year weekNum : Z) : string :=
  (pretty year ++ " Week " ++ pretty weekNum)%string.
(* `${year}-${month.toString().padStart(2, '0')}` *)
Definition mkMonthKey (year month : Z) : string :=
  (pretty year ++ "-" ++ padStart2 (pretty month))%string.

End Analytics.

(* ===================================================================== *)
(* Aggregator fan-out (StatisticsService.aggregateAnalytics)             *)
(* ===================================================================== *)

Module Aggregator.
Import Js Docs Analytics.

(* Values of the manager's storage: Durable Object id strings under
   trail:<id> and registration:<id>, the registration id lists under
   trail_registrations:<id>, and the analytics snapshot under
   analytics:data (its generation time is [lastUpdated]). *)
Inductive SVal :=
  | SStr (s : string)
  | SIds (registrationIds : list string)
  | SAnalytics (g : Groupings) (lastUpdated : Z).

Abbreviation Storage := (gmap string SVal).

(* state.storage.list({ prefix }): the entries whose key starts with the
   prefix, in ascending key order. *)
Definition storage_list (prefix : string) (s : Storage) : list (string * SVal) :=
  sort_by (fun a b => String.compare a.1 b.1)
    (map_to_list (filter (fun kv : string * SVal => String.prefix prefix kv.1 = true) s)).

(* The Durable Object namespaces: a GET fetch of the actor whose id string
   is given.  [inl]: idFromString or the fetch throws. *)
Record Env := {
  TRAIL_DO : string -> Exc (Response TrailData);
  REGISTRATION_DO : string -> Exc (Response RegistrationData) }.

(* The batching loop: currentBatch.push(entry); a full batch is pushed to
   batches; a last, partial batch is pushed after the loop. *)
Definition batch_step {A} (batchSize : nat) (acc : list (list A) * list A) (e : A) :=
  let cur := acc.2 ++ [e] in
  if (batchSize <=? length cur)%nat then (acc.1 ++ [cur], []) else (acc.1, cur).
Definition make_batches {A} (batchSize : nat) (l : list A) : list (list A) :=
  let acc := fold_left (batch_step batchSize) l ([], []) in
  match acc.2 with [] => acc.1 | _ => acc.1 ++ [acc.2] end.

(* interface TrailInfo { id; name; active } *)
Record TrailInfo := { ti_id : string; ti_name : string; ti_active : bool }.

(* new Date(timestamp) as the aggregation reads it: toISOString() date
   part, getFullYear(), getMonth(), the milliseconds since local January 1
   of its year and that January 1's getDay().  [None]: an invalid date, on
   which toISOString() throws a RangeError. *)
Record JSDate := {
  isoDate : string; fullYear : Z; month0 : Z; msSinceJan1 : Z; jan1Day : Z }.

(* getWeekNumber: Math.ceil((pastDaysOfYear + firstDayOfYear.getDay() + 1) / 7)
   with pastDaysOfYear = ms / 86400000, i.e. ceil((ms + (day+1)*86400000) / 604800000). *)
Definition getWeekNumber (d : JSDate) : Z :=
  - ((- (msSinceJan1 d + (jan1Day d + 1) * 86400000)) / 604800000).

Definition monthNames : list string :=
  ["January"; "February"; "March"; "April"; "May"; "June"; "July";
   "August"; "September"; "October"; "November"; "December"]%string.
Definition getMonthName (d : JSDate) : string :=
  default "undefined"%string (monthNames !! Z.to_nat (month0 d)).

Section Fanout.
Variable parseDate : string -> option JSDate.
Variable env : Env.

(* The body of one trail callback of getAllTrails: the entry to set in
   trailMap, if any.  Every error is caught and logged. *)
Definition trail_item (entry : string * SVal) : Exc (option (string * TrailInfo)) :=
  let trailId := substring_from 6 entry.1 in
  try_catch
    (match entry.2 with
     | SStr oid =>
         let! response := TRAIL_DO env oid in
         if Z.eqb (status response) 200 then
           let! d := json response in
           ret (Some (trailId, {| ti_id := trailId;
                                  ti_name := if String.eqb (name d) "" then "Unknown" else name d;
                                  ti_active := default false (active d) |}))
         else ret None
     | _ => throw "TypeError"
     end)
    (fun _ => None).

(* The callbacks of a batch run concurrently and each calls trailMap.set
   when its fetch completes; [sched batch] is the order in which they
   complete.  trailMap is only read with .get, so it is a gmap. *)
Definition set_results (m : gmap string TrailInfo) (r : Exc (option (string * TrailInfo))) :=
  match r with inr (Some (k, v)) => <[k := v]> m | _ => m end.

Definition getAllTrails (sched : list (string * SVal) -> list (string * SVal))
    (s : Storage) : gmap string TrailInfo :=
  let batches := make_batches 10 (storage_list "trail:" s) in
  fold_left (fun m batch => fold_left set_results (map trail_item (sched batch)) m)
    batches ∅.

(* The body of one registration callback of getAllRegistrations, wrapped
   in its try/catch. *)
Definition registration_item (trailMap : gmap string TrailInfo) (entry : string * SVal)
    : Exc (option ProcessedRegistration) :=
  try_catch
    (match entry.2 with
     | SStr oid =>
         if String.eqb oid "" then ret None else
         let! regResponse := REGISTRATION_DO env oid in
         if Z.eqb (status regResponse) 200 then
           let! regData := json regResponse in
           if String.eqb (Docs.timestamp regData) "" then ret None else
           let! dt := (match parseDate (Docs.timestamp regData) with
                       | Some dt => ret dt | None => throw "RangeError" end) in
           let tid := if String.eqb (Docs.trailId regData) "" then "unknown"%string
                      else Docs.trailId regData in
           let year := fullYear dt in
           let weekNum := getWeekNumber dt in
           ret (Some {| pr_id := substring_from 13 entry.1;
                        pr_trailId := tid;
                        trailName := match trailMap !! tid with
                                     | Some ti => ti_name ti | None => "Unknown" end;
                        Analytics.horseCount :=
                          if Z.eqb (Docs.horseCount regData) 0 then 1 else Docs.horseCount regData;
                        Analytics.timestamp := Docs.timestamp regData;
                        date := isoDate dt;
                        weekKey := mkWeekKey year weekNum;
                        weekLabel := mkWeekLabel year weekNum;
                        monthKey := mkMonthKey year (month0 dt + 1);
                        monthLabel := (getMonthName dt ++ " " ++ pretty year)%string |})
         else ret None
     | SIds _ | SAnalytics _ _ => throw "TypeError"
     end)
    (fun _ => None).

(* The value a registration callback resolves to. *)
Definition registration_result (trailMap : gmap string TrailInfo) (entry : string * SVal)
    : option ProcessedRegistration :=
  match registration_item trailMap entry with inr o => o | inl _ => None end.

(* The key/value pair a trail callback sets in trailMap, if any. *)
Definition trail_pair (entry : string * SVal) : option (string * TrailInfo) :=
  match trail_item entry with inr o => o | inl _ => None end.

(* for (const batch of regBatches) { await Promise.all(...); push non-null } *)
Definition getAllRegistrations (trailMap : gmap string TrailInfo) (s : Storage)
    : Exc (list ProcessedRegistration) :=
  fold_left
    (fun acc batch =>
       let! processed := acc in
       let! batchResults := promise_all (map (registration_item trailMap) batch) in
       ret (processed ++ omap (fun item => item) batchResults))
    (make_batches 50 (storage_list "registration:" s)) (ret []).

(* aggregateAnalytics at clock value [now]: on success the snapshot is
   stored under analytics:data and cached under analytics-data for ten
   minutes; an error is caught and logged, leaving both unchanged. *)
Definition aggregateAnalytics (sched : list (string * SVal) -> list (string * SVal))
    (now : Z) (s : Storage) (c : TTLCache.Cache SVal) : Storage * TTLCache.Cache SVal :=
  let trails := getAllTrails sched s in
  match getAllRegistrations trails s with
  | inr registrations =>
      let analyticsData := SAnalytics (processRegistrations registrations) now in
      (<["analytics:data" := analyticsData]> s,
       TTLCache.setInCache now "analytics-data" analyticsData (10 * 60 * 1000) c)
  | inl _ => (s, c)
  end.

End Fanout.
End Aggregator.

(* ===================================================================== *)
(* Paginated registration view (StatisticsService.getRegistrationData)   *)
(* ===================================================================== *)

Module Pagination.

(* page and limit are parseInt results: an integer, or NaN ([None]). *)
Definition Num := option Z.

(* a < b on numbers: false when either is NaN *)
Definition num_lt (a b : Num) : bool :=
  match a, b with Some x, Some y => Z.ltb x y | _, _ => false end.
Definition num_add (a b : Num) : Num :=
  match a, b with Some x, Some y => Some (x + y) | _, _ => None end.
Definition num_mul (a b : Num) : Num :=
  match a, b with Some x, Some y => Some (x * y) | _, _ => None end.
(* Math.min(a, b): NaN when either is NaN *)
Definition num_min (a b : Num) : Num :=
  match a, b with Some x, Some y => Some (Z.min x y) | _, _ => None end.
(* Math.ceil(n / limit), for the limits that reach it (>= 1 or NaN) *)
Definition num_ceil_div (n : Z) (limit : Num) : Num :=
  match limit with
  | Some l => if Z.ltb 0 l then Some (- ((- n) / l)) else None
  | None => None
  end.

(* Array.prototype.slice(start, end): each bound converted with
   ToIntegerOrInfinity (NaN is 0), negative bounds counted from the end,
   then clamped to [0, length]. *)
Definition js_slice {A} (l : list A) (start end_ : Num) : list A :=
  let len := Z.of_nat (length l) in
  let rel (k : Num) := match k with
                       | None => 0
                       | Some k => if Z.ltb k 0 then Z.max (len + k) 0 else Z.min k len
                       end in
  let from := rel start in
  let to := rel end_ in
  firstn (Z.to_nat (to - from)) (skipn (Z.to_nat from) l).

(* interface RegistrationTableItem *)
Record RegistrationTableItem := {
  ti_id : string; ti_date : string; ti_trail : string; ti_trailId : string;
  ti_riderName : string; ti_horseCount : Z; ti_timestamp : string }.

Record PageResponse := {
  data : list RegistrationTableItem;
  page : Num; limit : Num;
  totalItems : Z; totalPages : Num;
  hasNextPage : bool; hasPrevPage : bool }.

(* if (page < 1) page = 1; *)
Definition clampPage (page : Num) : Num :=
  if num_lt page (Some 1) then Some 1 else page.
(* if (limit < 1) limit = 10; if (limit > 100) limit = 100; *)
Definition clampLimit (limit : Num) : Num :=
  let limit1 := if num_lt limit (Some 1) then Some 10 else limit in
  if num_lt (Some 100) limit1 then Some 100 else limit1.

(* Lines 83-86 and 244-273 of getRegistrationData: clamp the parameters,
   sort the collected rows newest first, cut out the page and report the
   pagination metadata. *)
Definition registrationResponse (page0 limit0 : Num)
    (registrationList0 : list RegistrationTableItem) : PageResponse :=
  let page := clampPage page0 in
  let limit := clampLimit limit0 in
  let registrationList :=
    Js.sort_by (fun a b => Js.localeCompare (ti_timestamp b) (ti_timestamp a))
      registrationList0 in
  let totalItems := Z.of_nat (length registrationList) in
  let totalPages := num_ceil_div totalItems limit in
  let startIndex := num_mul (num_add page (Some (-1))) limit in
  let endIndex := num_min (num_add startIndex limit) (Some totalItems) in
  {| data := js_slice registrationList startIndex endIndex;
     page := page; limit := limit;
     totalItems := totalItems; totalPages := totalPages;
     hasNextPage := num_lt page totalPages;
     hasPrevPage := num_lt (Some 1) page |}.

End Pagination.

(* ===================================================================== *)
(* Registration write path and its timers (RegistrationService)          *)
(* ===================================================================== *)

Module Coordinator.
Import Js Docs.

Abbreviation Storage := Aggregator.Storage.

(* Partial<RegistrationData> as received in a request body *)
Record PartialRegistration := {
  p_id : option string; p_trailId : option string; p_riderName : option string;
  p_timestamp : option string; p_horseCount : option Z }.

Definition truthy_str (o : option string) : bool :=
  match o with Some s => negb (String.eqb s "") | None => false end.
Definition truthy_num (o : option Z) : bool :=
  match o with Some n => negb (Z.eqb n 0) | None => false end.

(* { ...existing, ...data }: the fields present in [data] win *)
Definition merge (existing : RegistrationData) (d : PartialRegistration) : RegistrationData :=
  {| id := default (id existing) (p_id d);
     trailId := default (trailId existing) (p_trailId d);
     riderName := default (riderName existing) (p_riderName d);
     timestamp := default (timestamp existing) (p_timestamp d);
     horseCount := default (horseCount existing) (p_horseCount d) |}.

Definition emptyRegistration : RegistrationData :=
  {| id := ""; trailId := ""; riderName := ""; timestamp := ""; horseCount := 0 |}.

(* RegistrationDO.fetch on the actor's stored document 'data':
   the status and the document afterwards. *)
Definition regdo_get (doc : option RegistrationData) : Response RegistrationData :=
  match doc with
  | Some d => {| status := 200; body := Some d |}
  | None => {| status := 404; body := None |}
  end.

(* PUT, at ISO time [nowIso] *)
Definition regdo_put (doc : option RegistrationData) (d : PartialRegistration) (nowIso : string)
    : Response RegistrationData * option RegistrationData :=
  match doc with
  | None =>
      if truthy_str (p_trailId d) && truthy_str (p_riderName d) && truthy_num (p_horseCount d)
      then let d' := if truthy_str (p_timestamp d) then d
                     else {| p_id := p_id d; p_trailId := p_trailId d; p_riderName := p_riderName d;
                             p_timestamp := Some nowIso; p_horseCount := p_horseCount d |} in
           let updated := merge emptyRegistration d' in
           ({| status := 200; body := Some updated |}, Some updated)
      else ({| status := 400; body := None |}, None)
  | Some existing =>
      let updated := merge existing d in
      ({| status := 200; body := Some updated |}, Some updated)
  end.

(* DELETE *)
Definition regdo_delete (doc : option RegistrationData)
    : Response RegistrationData * option RegistrationData :=
  match doc with
  | Some _ => ({| status := 200; body := None |}, None)
  | None => ({| status := 404; body := None |}, None)
  end.

(* Callbacks of the timers the service sets. *)
Inductive TimerAction :=
  | DebouncedInvalidate (trailId : string)   (* debounceInvalidateCache *)
  | RunAggregation.                          (* triggerAnalyticsAggregation *)

Record Timer := { tm_id : nat; tm_due : Z; tm_action : TimerAction }.

Record MgrState := {
  storage : Storage;
  regDocs : gmap string RegistrationData;       (* each RegistrationDO's 'data' *)
  cache : TTLCache.Cache Aggregator.SVal;
  timers : list Timer;                          (* pending setTimeout callbacks *)
  nextTimerId : nat;                            (* timer ids start at 1 *)
  cacheInvalidationTimers : gmap string nat;
  clock : Z;
  invalidations : list (Z * string);            (* invalidateAllCaches calls *)
  aggregations : list Z }.                      (* aggregateStatistics runs *)

Definition set_storage (st : MgrState) (s : Storage) : MgrState :=
  {| storage := s; regDocs := regDocs st; cache := cache st; timers := timers st;
     nextTimerId := nextTimerId st; cacheInvalidationTimers := cacheInvalidationTimers st;
     clock := clock st; invalidations := invalidations st; aggregations := aggregations st |}.
Definition set_doc (st : MgrState) (oid : string) (doc : option RegistrationData) : MgrState :=
  {| storage := storage st;
     regDocs := match doc with Some d => <[oid := d]> (regDocs st) | None => delete oid (regDocs st) end;
     cache := cache st; timers := timers st;
     nextTimerId := nextTimerId st; cacheInvalidationTimers := cacheInvalidationTimers st;
     clock := clock st; invalidations := invalidations st; aggregations := aggregations st |}.

(* setTimeout(callback, delay): returns the new timer's id *)
Definition setTimeout (st : MgrState) (delay : Z) (a : TimerAction) : MgrState * nat :=
  ({| storage := storage st; regDocs := regDocs st; cache := cache st;
      timers := timers st ++ [{| tm_id := nextTimerId st; tm_due := clock st + delay; tm_action := a |}];
      nextTimerId := S (nextTimerId st); cacheInvalidationTimers := cacheInvalidationTimers st;
      clock := clock st; invalidations := invalidations st; aggregations := aggregations st |},
   nextTimerId st).

Definition clearTimeout (st : MgrState) (tid : nat) : MgrState :=
  {| storage := storage st; regDocs := regDocs st; cache := cache st;
     timers := List.filter (fun t => negb (Nat.eqb (tm_id t) tid)) (timers st);
     nextTimerId := nextTimerId st; cacheInvalidationTimers := cacheInvalidationTimers st;
     clock := clock st; invalidations := invalidations st; aggregations := aggregations st |}.

Definition set_debounce (st : MgrState) (m : gmap string nat) : MgrState :=
  {| storage := storage st; regDocs := regDocs st; cache := cache st; timers := timers st;
     nextTimerId := nextTimerId st; cacheInvalidationTimers := m;
     clock := clock st; invalidations := invalidations st; aggregations := aggregations st |}.

(* trailId || 'global' *)
Definition timer_key (trailId : string) : string :=
  if String.eqb trailId "" then "global" else trailId.

(* invalidateAllCaches(trailId) ("" stands for null) *)
Definition invalidated_prefixes (trailId : string) : list string :=
  ["all-registrations"; "summary-statistics"; "registrations:"; "analytics-data";
   "all-trails"; "trails-name-map"]%string ++
  (if String.eqb trailId "" then []
   else ["trail-reg-count:" ++ trailId; "trail-horse-count:" ++ trailId; "trail:" ++ trailId]%string).

Definition invalidateAllCaches (st : MgrState) (trailId : string) : MgrState :=
  let c := fold_left (fun c p => TTLCache.invalidateCache p c) (invalidated_prefixes trailId) (cache st) in
  let st1 := {| storage := storage st; regDocs := regDocs st; cache := c; timers := timers st;
                nextTimerId := nextTimerId st; cacheInvalidationTimers := cacheInvalidationTimers st;
                clock := clock st; invalidations := invalidations st ++ [(clock st, trailId)];
                aggregations := aggregations st |} in
  (* triggerAnalyticsAggregation: setTimeout(..., 100) *)
  (setTimeout st1 100 RunAggregation).1.

(* debounceInvalidateCache(trailId) *)
Definition debounceInvalidateCache (st : MgrState) (trailId : string) : MgrState :=
  let key := timer_key trailId in
  let st1 := match cacheInvalidationTimers st !! key with
             | Some tid => if Nat.eqb tid 0 then st else clearTimeout st tid
             | None => st
             end in
  let '(st2, tid) := setTimeout st1 2000 (DebouncedInvalidate trailId) in
  set_debounce st2 (<[key := tid]> (cacheInvalidationTimers st2)).

(* Running a due timer's callback at its due time. *)
Definition fire (st : MgrState) (a : TimerAction) : MgrState :=
  match a with
  | DebouncedInvalidate trailId =>
      let st1 := invalidateAllCaches st trailId in
      set_debounce st1 (delete (timer_key trailId) (cacheInvalidationTimers st1))
  | RunAggregation =>
      {| storage := storage st; regDocs := regDocs st; cache := cache st; timers := timers st;
         nextTimerId := nextTimerId st; cacheInvalidationTimers := cacheInvalidationTimers st;
         clock := clock st; invalidations := invalidations st;
         aggregations := aggregations st ++ [clock st] |}
  end.

(* JS truthiness of a stored value *)
Definition truthy_sval (v : option Aggregator.SVal) : bool :=
  match v with
  | Some (Aggregator.SStr s) => negb (String.eqb s "")
  | Some _ => true
  | None => false
  end.

(* REGISTRATION_DO.idFromString: throws on a string that is not an actor id *)
Definition idFromString (validId : string -> bool) (v : Aggregator.SVal) : Exc string :=
  match v with
  | Aggregator.SStr s => if validId s then ret s else throw "Invalid Durable Object ID"
  | _ => throw "Invalid Durable Object ID"
  end.

(* updateTrailRegistrationsMap; None when the stored value has no
   registrationIds array (push on undefined throws) *)
Definition updateTrailRegistrationsMap (s : Storage) (trailId registrationId : string)
    : option Storage :=
  let k := ("trail_registrations:" ++ trailId)%string in
  let ids := match s !! k with
             | Some (Aggregator.SIds ids) => Some ids
             | v => if truthy_sval v then None else Some []
             end in
  match ids with
  | Some ids => Some (<[k := Aggregator.SIds (ids ++ [registrationId])]> s)
  | None => None
  end.

(* createRegistration; [registrationId] is crypto.randomUUID() and
   [registrationObjectId] is REGISTRATION_DO.newUniqueId().toString(),
   [nowIso] the actor's new Date().toISOString() *)
Definition createRegistration (registrationId registrationObjectId nowIso : string)
    (data : PartialRegistration) (st : MgrState) : Z * MgrState :=
  if negb (truthy_str (p_trailId data)) then (400, st) else
  let trailId := default "" (p_trailId data) in
  if negb (truthy_sval (storage st !! ("trail:" ++ trailId)%string)) then (404, st) else
  let data := {| p_id := Some registrationId; p_trailId := p_trailId data;
                 p_riderName := p_riderName data; p_timestamp := p_timestamp data;
                 p_horseCount := p_horseCount data |} in
  let '(response, doc) := regdo_put (regDocs st !! registrationObjectId) data nowIso in
  let st := set_doc st registrationObjectId doc in
  if Z.eqb (status response) 200 then
    let s1 := <[("registration:" ++ registrationId)%string :=
                  Aggregator.SStr registrationObjectId]> (storage st) in
    match updateTrailRegistrationsMap s1 trailId registrationId with
    | Some s2 => (status response, debounceInvalidateCache (set_storage st s2) trailId)
    | None => (500, set_storage st s1)
    end
  else (status response, st).

(* updateRegistration *)
Definition updateRegistration (validId : string -> bool) (registrationId nowIso : string)
    (data : PartialRegistration) (st : MgrState) : Exc (Z * MgrState) :=
  let v := storage st !! ("registration:" ++ registrationId)%string in
  if negb (truthy_sval v) then ret (404, st) else
  let! oid := idFromString validId (default (Aggregator.SStr "") v) in
  let originalResponse := regdo_get (regDocs st !! oid) in
  let originalData := if Z.eqb (status originalResponse) 200 then body originalResponse else None in
  let '(response, doc) := regdo_put (regDocs st !! oid) data nowIso in
  let st := set_doc st oid doc in
  if Z.eqb (status response) 200 then
    let st := match originalData with
              | Some o => if String.eqb (trailId o) "" then st else invalidateAllCaches st (trailId o)
              | None => st
              end in
    let st := match originalData with
              | Some o => if truthy_str (p_trailId data)
                             && negb (String.eqb (default "" (p_trailId data)) (trailId o))
                          then invalidateAllCaches st (default "" (p_trailId data)) else st
              | None => st
              end in
    ret (status response, st)
  else ret (status response, st).

(* deleteRegistration *)
Definition deleteRegistration (validId : string -> bool) (registrationId : string)
    (st : MgrState) : Exc (Z * MgrState) :=
  let key := ("registration:" ++ registrationId)%string in
  let v := storage st !! key in
  if negb (truthy_sval v) then ret (404, st) else
  let! oid := idFromString validId (default (Aggregator.SStr "") v) in
  let response := regdo_get (regDocs st !! oid) in
  let! ts :=
    if Z.eqb (status response) 200 then
      let tid := default "" (option_map Docs.trailId (body response)) in
      if String.eqb tid "" then ret (tid, storage st) else
      let rk := ("trail_registrations:" ++ tid)%string in
      match storage st !! rk with
      | Some (Aggregator.SIds ids) =>
          ret (tid, <[rk := Aggregator.SIds (List.filter (fun i => negb (String.eqb i registrationId)) ids)]> (storage st))
      | w => if truthy_sval w then throw "registrationIds is undefined" else ret (tid, storage st)
      end
    else ret ("", storage st) in
  let '(trailId, s) := ts in
  let st := set_storage st (delete key s) in
  let '(deleteResponse, doc) := regdo_delete (regDocs st !! oid) in
  let st := set_doc st oid doc in
  if Z.eqb (status deleteResponse) 200 && negb (String.eqb trailId "") then
    ret (status deleteResponse, invalidateAllCaches st trailId)
  else ret (status deleteResponse, st).

(* The event loop: due timers run in order of due time, then creation. *)
Definition earlier (t b : Timer) : bool :=
  Z.ltb (tm_due t) (tm_due b) || (Z.eqb (tm_due t) (tm_due b) && Nat.ltb (tm_id t) (tm_id b)).

Definition earliest (ts : list Timer) : option Timer :=
  fold_left (fun acc t => match acc with
                          | None => Some t
                          | Some b => if earlier t b then Some t else acc
                          end) ts None.

Definition set_clock (st : MgrState) (now : Z) : MgrState :=
  {| storage := storage st; regDocs := regDocs st; cache := cache st; timers := timers st;
     nextTimerId := nextTimerId st; cacheInvalidationTimers := cacheInvalidationTimers st;
     clock := now; invalidations := invalidations st; aggregations := aggregations st |}.

Fixpoint run_until (fuel : nat) (t : Z) (st : MgrState) : MgrState :=
  match fuel with
  | O => st
  | S f =>
      match earliest (timers st) with
      | Some tm =>
          if Z.leb (tm_due tm) t then
            let st1 := clearTimeout st (tm_id tm) in
            run_until f t (fire (set_clock st1 (Z.max (clock st1) (tm_due tm))) (tm_action tm))
          else set_clock st (Z.max (clock st) t)
      | None => set_clock st (Z.max (clock st) t)
      end
  end.

Inductive Request :=
  | Create (registrationId registrationObjectId nowIso : string) (data : PartialRegistration)
  | Update (registrationId nowIso : string) (data : PartialRegistration)
  | Delete (registrationId : string).

Definition handle (validId : string -> bool) (r : Request) (st : MgrState) : Exc (Z * MgrState) :=
  match r with
  | Create rid oid nowIso d => ret (createRegistration rid oid nowIso d st)
  | Update rid nowIso d => updateRegistration validId rid nowIso d st
  | Delete rid => deleteRegistration validId rid st
  end.

(* Requests arriving at the given times (in ms); a request that throws
   answers 500 and leaves the state as it was. *)
Fixpoint run_requests (validId : string -> bool) (fuel : nat) (reqs : list (Z * Request))
    (st : MgrState) : list Z * MgrState :=
  match reqs with
  | [] => ([], st)
  | (t, r) :: rest =>
      let st1 := run_until fuel t st in
      let '(code, st2) := match handle validId r st1 with
                          | inr p => p
                          | inl _ => (500, st1)
                          end in
      let '(codes, st3) := run_requests validId fuel rest st2 in
      (code :: codes, st3)
  end.

(* The pending debounced invalidation of a timer, by its key *)
Definition debounce_key (tm : Timer) : option string :=
  match tm_action tm with
  | DebouncedInvalidate x => Some (timer_key x)
  | RunAggregation => None
  end.

Definition has_debounce_key (k : string) (tm : Timer) : bool :=
  match debounce_key tm with Some k' => String.eqb k' k | None => false end.

(* Every pending debounced timer is the one recorded for its key. *)
Definition debounce_inv (st : MgrState) : Prop :=
  forall tm, In tm (timers st) -> forall x, tm_action tm = DebouncedInvalidate x ->
    cacheInvalidationTimers st !! timer_key x = Some (tm_id tm).

(* A sample system: trail T1 with one registration r1 stored in actor o1. *)
Definition sample_registration : RegistrationData :=
  {| id := "r1"; trailId := "T1"; riderName := "Ann";
     timestamp := "2024-03-01T10:00:00.000Z"; horseCount := 2 |}.

Definition sample_state : MgrState :=
  {| storage := <["trail:T1" := Aggregator.SStr "tobj"]>
                  (<["registration:r1" := Aggregator.SStr "o1"]>
                    (<["trail_registrations:T1" := Aggregator.SIds ["r1"]]> ∅));
     regDocs := <["o1" := sample_registration]> ∅; cache := ∅; timers := [];
     nextTimerId := 1%nat; cacheInvalidationTimers := ∅; clock := 0;
     invalidations := []; aggregations := [] |}.

Definition horse_update : PartialRegistration :=
  {| p_id := None; p_trailId := None; p_riderName := None; p_timestamp := None;
     p_horseCount := Some 3 |}.

Definition new_registration : PartialRegistration :=
  {| p_id := None; p_trailId := Some "T1"; p_riderName := Some "Bo"; p_timestamp := None;
     p_horseCount := Some 1 |}.

Definition all_ids_valid (s : string) : bool := true.

End Coordinator.


(* ===================================================================== *)
(* Trail listing (TrailService.getAllTrails)                             *)
(* ===================================================================== *)

Module TrailListing.
Import Js Docs Aggregator.

(* Values of the TrailManager cache read and written here: counts, and the
   trail list whose items are a document with its registrationCount and
   horseCount set. *)
#[warnings="-register-all"]
Inductive CVal :=
  | CNum (n : Z)
  | CTrails (l : list (TrailData * CVal * CVal)).

Abbreviation TrailOut := (TrailData * CVal * CVal)%type.

Abbreviation TCache := (TTLCache.Cache CVal).

Definition truthy_cval (v : CVal) : bool :=
  match v with CNum n => negb (Z.eqb n 0) | CTrails _ => true end.

Section Listing.
Variable env : Env.
Variable now : Z.                     (* Date.now() during the call *)
Variable s : Storage.                 (* the manager's storage *)

(* trailRegistrations ? trailRegistrations.registrationIds.length : 0 *)
Definition reg_count (trailId : string) : Exc Z :=
  match s !! ("trail_registrations:" ++ trailId)%string with
  | Some (SIds ids) => ret (Z.of_nat (length ids))
  | v => if Coordinator.truthy_sval v then throw "TypeError" else ret 0
  end.

(* one registration of the horse-count fan-out; every failure counts 0 *)
Definition horse_item (regId : string) : Z :=
  match s !! ("registration:" ++ regId)%string with
  | Some (SStr oid) =>
      if String.eqb oid "" then 0 else
      match REGISTRATION_DO env oid with
      | inr r => if Z.eqb (status r) 200
                 then match json r with inr d => horseCount d | inl _ => 0 end
                 else 0
      | inl _ => 0
      end
  | Some _ => 0                       (* idFromString throws: caught *)
  | None => 0
  end.

Definition horse_count (trailId : string) : Exc Z :=
  match s !! ("trail_registrations:" ++ trailId)%string with
  | Some (SIds ids) =>
      ret (fold_left (fun acc b => acc + fold_left Z.add (map horse_item b) 0)
             (make_batches 20 ids) 0)
  | v => if Coordinator.truthy_sval v then throw "TypeError" else ret 0
  end.

(* a cached count, or the count computed and cached for 2 minutes *)
Definition cached_count (key : string) (compute : Exc Z) (c : TCache) : Exc CVal * TCache :=
  let '(v, c) := TTLCache.getFromCache now key c in
  match v with
  | Some v => (inr v, c)
  | None =>
      match compute with
      | inr n => (inr (CNum n), TTLCache.setInCache now key (CNum n) (2 * 60 * 1000) c)
      | inl e => (inl e, c)
      end
  end.

(* The callback of one listed entry [key, id]; the whole body is in a
   try/catch answering null. *)
Definition trail_callback (entry : string * SVal) (c : TCache) : option TrailOut * TCache :=
  let trailId := substring_from 6 entry.1 in
  let fetched := match entry.2 with
                 | SStr oid => TRAIL_DO env oid
                 | _ => throw "Invalid Durable Object ID"
                 end in
  match fetched with
  | inl _ => (None, c)
  | inr response =>
      if negb (Z.eqb (status response) 200) then (None, c) else
      match json response with
      | inl _ => (None, c)
      | inr d =>
          match cached_count ("trail-reg-count:" ++ trailId) (reg_count trailId) c with
          | (inl _, c) => (None, c)
          | (inr rc, c) =>
              match cached_count ("trail-horse-count:" ++ trailId) (horse_count trailId) c with
              | (inl _, c) => (None, c)
              | (inr hc, c) =>
                  (if bool_decide (active d = Some false) then None else Some (d, rc, hc), c)
              end
          end
      end
  end.

(* The callbacks of a batch share the cache; they are run here in list
   order, which is one interleaving of their cache accesses. *)
Fixpoint run_batch (b : list (string * SVal)) (c : TCache) : list (option TrailOut) * TCache :=
  match b with
  | [] => ([], c)
  | e :: b' =>
      let '(r, c1) := trail_callback e c in
      let '(rs, c2) := run_batch b' c1 in
      (r :: rs, c2)
  end.

(* trails.push(...batchResults.filter(trail => trail !== null)) per batch *)
Fixpoint run_batches (bs : list (list (string * SVal))) (trails : list TrailOut) (c : TCache)
    : list TrailOut * TCache :=
  match bs with
  | [] => (trails, c)
  | b :: bs' =>
      let '(rs, c1) := run_batch b c in
      run_batches bs' (trails ++ omap (fun r => r) rs) c1
  end.

(* getAllTrails: the response body and the cache afterwards *)
Definition getAllTrails (c : TCache) : CVal * TCache :=
  let '(cached, c) := TTLCache.getFromCache now "all-trails" c in
  match cached with
  | Some v => if truthy_cval v then (v, c) else
      let '(trails, c) := run_batches (make_batches 10 (storage_list "trail:" s)) [] c in
      (CTrails trails, TTLCache.setInCache now "all-trails" (CTrails trails) (60 * 1000) c)
  | None =>
      let '(trails, c) := run_batches (make_batches 10 (storage_list "trail:" s)) [] c in
      (CTrails trails, TTLCache.setInCache now "all-trails" (CTrails trails) (60 * 1000) c)
  end.

End Listing.

(* The document of a listed entry when its actor fetch succeeds (status 200
   and a parseable body). *)
Definition fetched_doc (env : Env) (entry : string * SVal) : option TrailData :=
  match entry.2 with
  | SStr oid =>
      match TRAIL_DO env oid with
      | inr r => if Z.eqb (status r) 200 then body r else None
      | inl _ => None
      end
  | _ => None
  end.

(* Sample system: trail A is active, trail B has been deactivated. *)
Definition sample_trail_env : Env :=
  {| TRAIL_DO := fun oid =>
       if String.eqb oid "oa" then
         inr {| status := 200; body := Some {| name := "Ridge Loop"; active := Some true |} |}
       else if String.eqb oid "ob" then
         inr {| status := 200; body := Some {| name := "Creek Trail"; active := Some false |} |}
       else throw "Invalid Durable Object ID";
     REGISTRATION_DO := fun _ => throw "Invalid Durable Object ID" |}.

Definition sample_trail_storage : Storage :=
  <["trail:A" := SStr "oa"]> (<["trail:B" := SStr "ob"]>
    (<["trail_registrations:A" := SIds []]> ∅)).

End TrailListing.


(* ===================================================================== *)
(* Request routing (TrailManagerDO.fetch and the services' handleRequest) *)
(* ===================================================================== *)

Module Routing.
Import Js.

(* String.prototype.split(sep) with a one-character separator *)
Fixpoint split_on (sep : Ascii.ascii) (s : string) : list string :=
  match s with
  | EmptyString => [""%string]
  | String c s' =>
      let rest := split_on sep s' in
      if Ascii.eqb c sep then ""%string :: rest
      else match rest with
           | x :: xs => String c x :: xs
           | [] => [String c ""]
           end
  end.

(* the character '/' *)
Definition slash : Ascii.ascii := Ascii.Ascii true true true true false true false false.

(* getIdFromPath: parts.length > 2 ? parts[2] : null *)
Definition getIdFromPath (path : string) : option string :=
  let parts := split_on slash path in
  if (2 <? length parts)%nat then parts !! 2%nat else None.

Inductive Method := GET | POST | PUT | DELETE | OtherMethod.

Definition method_eqb (a b : Method) : bool :=
  match a, b with
  | GET, GET | POST, POST | PUT, PUT | DELETE, DELETE | OtherMethod, OtherMethod => true
  | _, _ => false
  end.

(* The handler a request reaches, with its arguments. *)
Inductive Route :=
  | GetAllTrails | CreateTrail | PublicTrailInfo (trailId : option string)
  | GetTrail (trailId : string) | UpdateTrail (trailId : string) | DeleteTrail (trailId : string)
  | TrailRegistrations (trailId : string) | GenerateTrailQRCode (trailId : string)
  | TrailIdRequired
  | CreateRegistration | GetAllRegistrations | FlushAllRegistrations
  | GetRegistration (registrationId : string) | UpdateRegistration (registrationId : string)
  | DeleteRegistration (registrationId : string) | RegistrationIdRequired
  | TemplateRequest (path : string) | StatisticsRequest
  | NotFound.

(* "" stands for a falsy id *)
Definition truthy_id (o : option string) : option string :=
  match o with Some s => if String.eqb s "" then None else Some s | None => None end.

(* TrailService.handleRequest *)
Definition trail_route (m : Method) (path : string) : Route :=
  if String.eqb path "/trails" && method_eqb m GET then GetAllTrails else
  if String.eqb path "/trails" && method_eqb m POST then CreateTrail else
  if String.prefix "/public/trails/" path && method_eqb m GET
  then PublicTrailInfo (split_on slash path !! 3%nat) else
  match truthy_id (getIdFromPath path) with
  | None => TrailIdRequired
  | Some trailId =>
      if String.eqb path ("/trails/" ++ trailId) && method_eqb m GET then GetTrail trailId else
      if String.eqb path ("/trails/" ++ trailId) && method_eqb m PUT then UpdateTrail trailId else
      if String.eqb path ("/trails/" ++ trailId) && method_eqb m DELETE then DeleteTrail trailId else
      if String.eqb path ("/trails/" ++ trailId ++ "/registrations") && method_eqb m GET
      then TrailRegistrations trailId else
      if String.eqb path ("/trails/" ++ trailId ++ "/generate-qr") && method_eqb m POST
      then GenerateTrailQRCode trailId else
      NotFound
  end.

(* RegistrationService.handleRequest *)
Definition registration_route (m : Method) (path : string) : Route :=
  if String.eqb path "/public/registrations" && method_eqb m POST then CreateRegistration else
  if String.eqb path "/registrations" && method_eqb m POST then CreateRegistration else
  if String.eqb path "/registrations" && method_eqb m GET then GetAllRegistrations else
  if String.eqb path "/registrations/flush-all" && method_eqb m DELETE then FlushAllRegistrations else
  match truthy_id (getIdFromPath path) with
  | None => RegistrationIdRequired
  | Some registrationId =>
      if String.eqb path ("/registrations/" ++ registrationId) && method_eqb m GET
      then GetRegistration registrationId else
      if String.eqb path ("/registrations/" ++ registrationId) && method_eqb m PUT
      then UpdateRegistration registrationId else
      if String.eqb path ("/registrations/" ++ registrationId) && method_eqb m DELETE
      then DeleteRegistration registrationId else
      NotFound
  end.

(* TrailManagerDO.fetch on the request's url.pathname *)
Definition manager_route (m : Method) (pathname : string) : Route :=
  let path := if String.prefix "/api/" pathname then substring_from 4 pathname else pathname in
  if String.prefix "/public/trails" path then trail_route m path else
  if String.prefix "/public/registrations" path then registration_route m path else
  if String.prefix "/trails" path then trail_route m path else
  if String.prefix "/registrations" path then registration_route m path else
  if String.prefix "/templates" path then TemplateRequest path else
  if String.prefix "/statistics" path then StatisticsRequest else
  NotFound.

(* a path segment: no '/' in it *)
Fixpoint segment (s : string) : bool :=
  match s with
  | EmptyString => true
  | String c s' => negb (Ascii.eqb c slash) && segment s'
  end.

End Routing.

(* ===================================================================== *)
(* RegistrationService.flushAllRegistrations                             *)
(* ===================================================================== *)

Module Flush.
Import TTLCache Js Docs Coordinator Aggregator.

(* One iteration of the deletion loop over [key, id] of registration:*;
   an id that idFromString rejects is caught and skipped. *)
Definition flush_one (validId : string -> bool) (st : MgrState) (kv : string * SVal) : MgrState :=
  match idFromString validId kv.2 with
  | inl _ => st
  | inr oid =>
      let st1 := set_doc st oid (regdo_delete (regDocs st !! oid)).2 in
      set_storage st1 (delete kv.1 (storage st1))
  end.

(* storage.put(key, { registrationIds: [] }) *)
Definition clear_trail_list (st : MgrState) (kv : string * SVal) : MgrState :=
  set_storage st (<[kv.1 := SIds []]> (storage st)).

(* flushAllRegistrations: the status and the state afterwards *)
Definition flushAllRegistrations (validId : string -> bool) (st : MgrState) : Z * MgrState :=
  let registrationIds := storage_list "registration:" (storage st) in
  let trailRegistrationsEntries := storage_list "trail_registrations:" (storage st) in
  let st := fold_left (flush_one validId) registrationIds st in
  let st := fold_left clear_trail_list trailRegistrationsEntries st in
  (200, invalidateAllCaches st "").

End Flush.

(* The timer bookkeeping the manager keeps: the debounce map points at
   pending timers, timer ids are positive, distinct and below the next id. *)
Module CoordinatorInvariants.
Import Js Docs Coordinator.

Definition timers_ok (st : MgrState) : Prop :=
  debounce_inv st /\
  map_Forall (fun _ v => v <> 0%nat) (cacheInvalidationTimers st) /\
  nextTimerId st <> 0%nat /\
  NoDup (map tm_id (timers st)) /\
  Forall (fun tm => (tm_id tm < nextTimerId st)%nat) (timers st).

(* Cache invalidations done at once, each with the re-aggregation timer
   that invalidateAllCaches sets 100 ms later; the debounce map untouched. *)
Definition immediate_invalidations (st st' : MgrState) (ts : list string) : Prop :=
  invalidations st' = invalidations st ++ map (fun t => (clock st, t)) ts /\
  (exists new, timers st' = timers st ++ new /\
     map tm_action new = map (fun _ => RunAggregation) ts /\
     Forall (fun tm => tm_due tm = clock st + 100) new) /\
  cacheInvalidationTimers st' = cacheInvalidationTimers st /\
  clock st' = clock st /\ aggregations st' = aggregations st.

(* The trails updateRegistration invalidates, given the actor's document
   before the call and the request body. *)
Definition update_invalidated (doc : option RegistrationData) (d : PartialRegistration) : list string :=
  match doc with
  | Some o =>
      (if String.eqb (trailId o) "" then [] else [trailId o]) ++
      (if truthy_str (p_trailId d) && negb (String.eqb (default "" (p_trailId d)) (trailId o))
       then [default "" (p_trailId d)] else [])
  | None => []
  end.

(* The trail deleteRegistration invalidates, given the actor's document. *)
Definition delete_invalidated (doc : option RegistrationData) : list string :=
  match doc with
  | Some o => if String.eqb (trailId o) "" then [] else [trailId o]
  | None => []
  end.
End CoordinatorInvariants.

(* ===================================================================== *)
(* Theorems                                                              *)
(* ===================================================================== *)

Module CacheFacts.
Import TTLCache.

Lemma get_after_set_within {A} (c : Cache A) k (v : A) ttl t0 t :
  t0 <= t <= t0 + ttl ->
  getFromCache t k (setInCache t0 k v ttl c) = (Some v, setInCache t0 k v ttl c).
Proof.
  intros Ht. unfold getFromCache, setInCache.
  rewrite lookup_insert_eq. simpl.
  destruct (Z.ltb_spec (t0 + ttl) t); [lia | reflexivity].
Qed.

Lemma get_after_set_expired {A} (c : Cache A) k (v : A) ttl t0 t :
  t0 + ttl < t ->
  getFromCache t k (setInCache t0 k v ttl c) = (None, delete k (setInCache t0 k v ttl c)).
Proof.
  intros Ht. unfold getFromCache, setInCache.
  rewrite lookup_insert_eq. simpl.
  destruct (Z.ltb_spec (t0 + ttl) t); [reflexivity | lia].
Qed.

Lemma lookup_invalidate {A} (p k : string) (c : Cache A) :
  invalidateCache p c !! k = if String.prefix p k then None else c !! k.
Proof.
  unfold invalidateCache. rewrite map_lookup_filter.
  destruct (c !! k) as [e|] eqn:He; simpl.
  - destruct (String.prefix p k); reflexivity.
  - destruct (String.prefix p k); reflexivity.
Qed.

Lemma get_absent {A} t k (c : Cache A) :
  c !! k = None -> getFromCache t k c = (None, c).
Proof. intros H. unfold getFromCache. by rewrite H. Qed.

End CacheFacts.

(* --------------------------------------------------------------------- *)
(* Cache claims                                                          *)
(* --------------------------------------------------------------------- *)

Import TTLCache.

(** C2 (counterexample): the expiry test is [Date.now() > entry.expires], so
    a read at exactly [ttl] milliseconds after the set still returns the
    value; "ttl or more elapsed implies absent" is false at the boundary. *)
Lemma cache_expiry_boundary_counterexample :
  ~ (forall (c : Cache nat) (k : string) (v : nat) (ttl t0 t : Z),
       0 < ttl -> t0 + ttl <= t ->
       fst (getFromCache t k (setInCache t0 k v ttl c)) = None).
Proof.
  intros H.
  specialize (H ∅ "k"%string 7%nat 1000 0 1000 ltac:(lia) ltac:(lia)).
  vm_compute in H. discriminate.
Qed.

(** C2 (amended): after [setInCache t0 k v ttl], a read of [k] at any time
    from [t0] up to and including [t0 + ttl] returns [v] and leaves the
    table unchanged; a read at any time strictly later than [t0 + ttl]
    returns absent and deletes [k] from the table. *)
Theorem cache_set_get_ttl {A} (c : Cache A) (k : string) (v : A) (ttl t0 : Z) :
  0 < ttl ->
  (forall t, t0 <= t <= t0 + ttl ->
     getFromCache t k (setInCache t0 k v ttl c) = (Some v, setInCache t0 k v ttl c)) /\
  (forall t, t0 + ttl < t ->
     fst (getFromCache t k (setInCache t0 k v ttl c)) = None /\
     snd (getFromCache t k (setInCache t0 k v ttl c)) !! k = None /\
     (forall k', k' <> k ->
        snd (getFromCache t k (setInCache t0 k v ttl c)) !! k' = c !! k')).
Proof.
  intros _. split.
  - intros t Ht. by apply CacheFacts.get_after_set_within.
  - intros t Ht. rewrite CacheFacts.get_after_set_expired by exact Ht. simpl.
    split; [done|]. split; [by rewrite lookup_delete_eq|].
    intros k' Hk. rewrite lookup_delete_ne by congruence.
    unfold setInCache. by rewrite lookup_insert_ne by congruence.
Qed.

Lemma cache_set_get_ttl_witness :
  0 < 30000 /\
  getFromCache 30000 "registrations:1:10"%string
    (setInCache 0 "registrations:1:10"%string 25%nat 30000 ∅) =
  (Some 25%nat, setInCache 0 "registrations:1:10"%string 25%nat 30000 ∅).
Proof.
  split; [lia|].
  apply (proj1 (cache_set_get_ttl (∅ : Cache nat) "registrations:1:10"%string 25%nat 30000 0
                  ltac:(lia))).
  lia.
Defined.

(** C3: after [invalidateCache p], every key that starts with [p] is absent
    from the table (so every read of it returns absent at any time), and
    every key that does not start with [p] keeps exactly its previous entry
    (same value, same expiry). *)
Theorem invalidate_prefix_spec {A} (p : string) (c : Cache A) :
  (forall k, String.prefix p k = true ->
     invalidateCache p c !! k = None /\
     (forall t, getFromCache t k (invalidateCache p c) = (None, invalidateCache p c))) /\
  (forall k, String.prefix p k = false ->
     invalidateCache p c !! k = c !! k).
Proof.
  split.
  - intros k Hk.
    assert (Hn : invalidateCache p c !! k = None)
      by (rewrite CacheFacts.lookup_invalidate, Hk; reflexivity).
    split; [exact Hn|]. intros t. by apply CacheFacts.get_absent.
  - intros k Hk. by rewrite CacheFacts.lookup_invalidate, Hk.
Qed.

(* --------------------------------------------------------------------- *)
(* Facts about the fan-out                                               *)
(* --------------------------------------------------------------------- *)

Module FanoutFacts.
Import Js Docs Analytics Aggregator.

Lemma fold_batch_step {A} (n : nat) (l : list A) bs cur :
  concat (fold_left (batch_step n) l (bs, cur)).1 ++ (fold_left (batch_step n) l (bs, cur)).2
  = concat bs ++ cur ++ l.
Proof.
  revert bs cur. induction l as [|e l IH]; intros bs cur; simpl.
  - by rewrite app_nil_r.
  - destruct (batch_step n (bs, cur) e) as [bs' cur'] eqn:Hp. rewrite IH.
    unfold batch_step in Hp. simpl in Hp.
    destruct (n <=? length (cur ++ [e]))%nat; inversion Hp; subst.
    + rewrite concat_app. simpl. rewrite !app_nil_r, <- !app_assoc. reflexivity.
    + rewrite <- !app_assoc. reflexivity.
Qed.

(* The batches, concatenated, are the listed entries in order. *)
Lemma concat_make_batches {A} (n : nat) (l : list A) : concat (make_batches n l) = l.
Proof.
  unfold make_batches.
  pose proof (fold_batch_step n l [] []) as H. simpl in H.
  destruct (fold_left (batch_step n) l ([], [])) as [bs cur]. simpl in *.
  destruct cur as [|c cur'].
  - by rewrite app_nil_r in H.
  - rewrite concat_app. simpl. by rewrite app_nil_r.
Qed.

Lemma try_catch_value {A} (m : Exc A) (h : string -> A) :
  try_catch m h = inr (match m with inl e => h e | inr a => a end).
Proof. by destruct m. Qed.

Lemma registration_item_value pd env tm e :
  registration_item pd env tm e = inr (registration_result pd env tm e).
Proof.
  unfold registration_result, registration_item. by rewrite try_catch_value.
Qed.

Lemma promise_all_inr {A B} (f : A -> B) (l : list A) :
  promise_all (map (fun x => inr (f x)) l) = inr (map f l).
Proof. induction l as [|x l IH]; simpl; [done|]. by rewrite IH. Qed.

Lemma fold_registration_batches pd env tm (bs : list (list (string * SVal))) acc :
  fold_left
    (fun acc batch =>
       let! processed := acc in
       let! batchResults := promise_all (map (registration_item pd env tm) batch) in
       ret (processed ++ omap (fun item => item) batchResults))
    bs (inr acc)
  = inr (acc ++ omap (registration_result pd env tm) (concat bs)).
Proof.
  revert acc. induction bs as [|b bs IH]; intros acc; simpl.
  - by rewrite app_nil_r.
  - assert (Hb : map (registration_item pd env tm) b
                 = map (fun x => inr (registration_result pd env tm x)) b).
    { apply map_ext. intros e. apply registration_item_value. }
    rewrite Hb, promise_all_inr. simpl. etransitivity; [apply IH|].
    rewrite omap_app, app_assoc. do 3 f_equal.
    clear. induction b as [|x b IHb]; simpl; [done|].
    destruct (registration_result pd env tm x); simpl.
    + f_equal. exact IHb.
    + exact IHb.
Qed.

(* getAllRegistrations never rejects: its result is the non-null callback
   values of all listed entries, in listing order. *)
Lemma getAllRegistrations_value pd env tm s :
  getAllRegistrations pd env tm s
  = inr (omap (registration_result pd env tm) (storage_list "registration:" s)).
Proof.
  unfold getAllRegistrations. rewrite fold_registration_batches.
  simpl. by rewrite concat_make_batches.
Qed.

Lemma storage_list_insert_other p k v (s : Storage) :
  String.prefix p k = false -> storage_list p (<[k := v]> s) = storage_list p s.
Proof.
  intros Hk. unfold storage_list. rewrite map_filter_insert_not; [done|].
  intros y. simpl. by rewrite Hk.
Qed.

Lemma insert_by_perm {A} (cmp : A -> A -> comparison) x l : insert_by cmp x l ≡ₚ x :: l.
Proof.
  induction l as [|y l IH]; simpl; [done|].
  destruct (cmp x y); try done; rewrite IH; apply Permutation_swap.
Qed.

Lemma sort_by_perm {A} (cmp : A -> A -> comparison) l : sort_by cmp l ≡ₚ l.
Proof.
  induction l as [|x l IH]; simpl; [done|]. by rewrite insert_by_perm, IH.
Qed.

Lemma prefix_split p k :
  String.prefix p k = true -> k = (p ++ substring_from (String.length p) k)%string.
Proof.
  revert k. induction p as [|a p IH]; intros k H; simpl; [by destruct k|].
  destruct k as [|b k]; simpl in H; [discriminate|].
  destruct (Ascii.ascii_dec a b) as [->|]; [|discriminate].
  change (String b k = String b (p ++ substring_from (String.length p) k)%string).
  f_equal. by apply IH.
Qed.

Lemma trail_key_inj k1 k2 :
  String.prefix "trail:" k1 = true -> String.prefix "trail:" k2 = true ->
  substring_from 6 k1 = substring_from 6 k2 -> k1 = k2.
Proof.
  intros H1 H2 He.
  rewrite (prefix_split _ _ H1), (prefix_split _ _ H2).
  change (String.length "trail:") with 6%nat. by rewrite He.
Qed.

Lemma trail_pair_key env e kv : trail_pair env e = Some kv -> kv.1 = substring_from 6 e.1.
Proof.
  unfold trail_pair, trail_item. rewrite try_catch_value.
  destruct e as [key v]; simpl.
  destruct v as [oid| |]; simpl; try discriminate.
  destruct (TRAIL_DO env oid) as [|r]; simpl; [discriminate|].
  destruct (Z.eqb (status r) 200); simpl; [|discriminate].
  destruct (json r); simpl; [discriminate|]. intros [= <-]. reflexivity.
Qed.

Lemma fold_sets env (L : list (string * SVal)) (m : gmap string TrailInfo) :
  fold_left set_results (map (trail_item env) L) m
  = fold_left (fun m kv => <[kv.1 := kv.2]> m) (omap (trail_pair env) L) m.
Proof.
  revert m. induction L as [|e L IH]; intros m; simpl; [done|].
  assert (He : trail_item env e = inr (trail_pair env e))
    by (unfold trail_pair, trail_item; by rewrite try_catch_value).
  rewrite He. destruct (trail_pair env e) as [[k v]|]; simpl; apply IH.
Qed.

Lemma fold_batches {A B C} (g : A -> B -> A) (f : C -> B) (h : list C -> list C)
    (bs : list (list C)) (m : A) :
  fold_left (fun m b => fold_left g (map f (h b)) m) bs m
  = fold_left g (map f (concat (map h bs))) m.
Proof.
  revert m. induction bs as [|b bs IH]; intros m; simpl; [done|].
  by rewrite IH, map_app, fold_left_app.
Qed.

Lemma concat_map_perm {C} (h : list C -> list C) (bs : list (list C)) :
  (forall b, h b ≡ₚ b) -> concat (map h bs) ≡ₚ concat bs.
Proof.
  intros Hh. induction bs as [|b bs IH]; simpl; [done|]. by rewrite Hh, IH.
Qed.

Lemma trail_pairs_nodup env (L : list (string * SVal)) :
  NoDup L.*1 -> (forall e, e ∈ L -> String.prefix "trail:" e.1 = true) ->
  NoDup (omap (trail_pair env) L).*1.
Proof.
  induction L as [|e L IH]; intros Hnd Hp; simpl; [constructor|].
  inversion Hnd as [|? ? Hnot Hnd']; subst.
  assert (IH' : NoDup (omap (trail_pair env) L).*1)
    by (apply IH; [done| intros e' He'; apply Hp; by right]).
  destruct (trail_pair env e) as [kv|] eqn:Hkv; simpl; [|exact IH'].
  constructor; [|exact IH'].
  intros Hin. apply Hnot.
  apply list_elem_of_fmap in Hin as [kv' [Hk Hin]].
  apply list_elem_of_omap in Hin as [e' [He' Hkv']].
  apply trail_pair_key in Hkv, Hkv'.
  assert (e'.1 = e.1) as Heq.
  { apply trail_key_inj; [apply Hp; by right| apply Hp; by left| congruence]. }
  rewrite <- Heq. apply list_elem_of_fmap. eauto.
Qed.

Lemma storage_list_trail_props (s : Storage) :
  NoDup ((storage_list "trail:" s).*1) /\
  (forall e, e ∈ storage_list "trail:" s -> String.prefix "trail:" e.1 = true).
Proof.
  unfold storage_list. split.
  - rewrite sort_by_perm. apply NoDup_fst_map_to_list.
  - intros [k v] He. rewrite sort_by_perm in He.
    apply elem_of_map_to_list, map_lookup_filter_Some in He. by destruct He.
Qed.

(* Whatever order the trail callbacks of each batch complete in, trailMap
   ends up as the map of the trail pairs of the listing. *)
Lemma getAllTrails_canonical env sched s :
  (forall b, sched b ≡ₚ b) ->
  getAllTrails env sched s = list_to_map (omap (trail_pair env) (storage_list "trail:" s)).
Proof.
  intros Hs. unfold getAllTrails.
  rewrite fold_batches, fold_sets.
  rewrite <- fold_left_rev_right. fold (list_to_map (M := gmap string TrailInfo)
     (rev (omap (trail_pair env) (concat (map sched (make_batches 10 (storage_list "trail:" s))))))).
  destruct (storage_list_trail_props s) as [Hnd Hp].
  assert (Hperm : rev (omap (trail_pair env) (concat (map sched (make_batches 10 (storage_list "trail:" s)))))
                  ≡ₚ omap (trail_pair env) (storage_list "trail:" s)).
  { rewrite <- Permutation_rev, concat_map_perm by exact Hs.
    by rewrite concat_make_batches. }
  apply list_to_map_proper; [|exact Hperm].
  rewrite Hperm. by apply trail_pairs_nodup.
Qed.

End FanoutFacts.

(* --------------------------------------------------------------------- *)
(* Aggregator claims                                                     *)
(* --------------------------------------------------------------------- *)

Import Js Docs Analytics Aggregator.

(** C1 (code defect): processRegistrations sorts the weekly list with
    [a.timeKey.localeCompare(b.timeKey)] on the unpadded keys
    `${year}-W${weekNum}`, so for two registrations of 2024 in weeks 9 and
    10 the weekly list puts 2024-W10 before 2024-W9, in either input order. *)
Theorem weekly_sort_places_W10_before_W9 :
  let reg (wk : Z) :=
    {| pr_id := "r"; pr_trailId := "T1"; trailName := "Ridge";
       Analytics.horseCount := 1; Analytics.timestamp := "2024-03-01T10:00:00.000Z";
       date := "2024-03-01"; weekKey := mkWeekKey 2024 wk;
       weekLabel := mkWeekLabel 2024 wk; monthKey := mkMonthKey 2024 3;
       monthLabel := "March 2024" |} in
  map timeKey (weekly (processRegistrations [reg 9; reg 10])) = ["2024-W10"; "2024-W9"]%string /\
  map timeKey (weekly (processRegistrations [reg 10; reg 9])) = ["2024-W10"; "2024-W9"]%string.
Proof. split; vm_compute; reflexivity. Qed.

(** C5: the registration fan-out of the Aggregator never rejects.  Its
    result is the non-null callback values of all listed registration
    entries in listing order; an entry whose actor call throws contributes
    nothing, so with such an entry anywhere in the listing the result is
    the one built from the other entries alone; and the aggregation then
    stores and caches the snapshot grouped from that result. *)
Theorem registration_fanout_failure_isolated pd env
    (sched : list (string * SVal) -> list (string * SVal)) now s c :
  let tm := getAllTrails env sched s in
  getAllRegistrations pd env tm s
    = inr (omap (registration_result pd env tm) (storage_list "registration:" s)) /\
  (forall l1 l2 key oid err,
     storage_list "registration:" s = l1 ++ (key, SStr oid) :: l2 ->
     REGISTRATION_DO env oid = inl err ->
     getAllRegistrations pd env tm s
       = inr (omap (registration_result pd env tm) (l1 ++ l2))) /\
  (aggregateAnalytics pd env sched now s c).1 !! "analytics:data"%string
    = Some (SAnalytics (processRegistrations
                          (omap (registration_result pd env tm)
                                (storage_list "registration:" s))) now).
Proof.
  intros tm. split; [|split].
  - apply FanoutFacts.getAllRegistrations_value.
  - intros l1 l2 key oid err Hl Herr.
    rewrite FanoutFacts.getAllRegistrations_value, Hl, !omap_app. simpl.
    assert (Hn : registration_result pd env tm (key, SStr oid) = None).
    { unfold registration_result, registration_item. simpl.
      destruct (String.eqb oid ""); [reflexivity|]. rewrite Herr. reflexivity. }
    by rewrite Hn.
  - unfold aggregateAnalytics. fold tm.
    rewrite FanoutFacts.getAllRegistrations_value. simpl.
    by rewrite lookup_insert_eq.
Qed.

(** C6: running aggregateAnalytics twice in succession, the second run on
    the storage and cache left by the first, with no other change, stores
    and caches the same grouped snapshot (daily, weekly, monthly and
    by-trail lists, totals and order) both times; only the generation time
    differs.  This holds whatever order the concurrent trail fetches of
    each batch complete in, in either run. *)
Theorem aggregate_twice_same_groupings pd env
    (sched1 sched2 : list (string * SVal) -> list (string * SVal)) now1 now2 s c :
  (forall b, sched1 b ≡ₚ b) -> (forall b, sched2 b ≡ₚ b) ->
  exists g : Groupings,
    let r1 := aggregateAnalytics pd env sched1 now1 s c in
    let r2 := aggregateAnalytics pd env sched2 now2 r1.1 r1.2 in
    r1.1 !! "analytics:data"%string = Some (SAnalytics g now1) /\
    r2.1 !! "analytics:data"%string = Some (SAnalytics g now2) /\
    TTLCache.getFromCache now1 "analytics-data" r1.2 = (Some (SAnalytics g now1), r1.2) /\
    TTLCache.getFromCache now2 "analytics-data" r2.2 = (Some (SAnalytics g now2), r2.2).
Proof.
  intros H1 H2.
  set (tm := list_to_map (omap (trail_pair env) (storage_list "trail:" s)) : gmap string TrailInfo).
  set (g := processRegistrations
              (omap (registration_result pd env tm) (storage_list "registration:" s))).
  exists g. simpl.
  assert (Hr1 : aggregateAnalytics pd env sched1 now1 s c
                = (<["analytics:data" := SAnalytics g now1]> s,
                   TTLCache.setInCache now1 "analytics-data" (SAnalytics g now1) (10 * 60 * 1000) c)).
  { unfold aggregateAnalytics.
    rewrite (FanoutFacts.getAllTrails_canonical env sched1 s H1).
    by rewrite FanoutFacts.getAllRegistrations_value. }
  rewrite Hr1. simpl.
  set (s1 := <["analytics:data" := SAnalytics g now1]> s).
  assert (Ht : storage_list "trail:" s1 = storage_list "trail:" s)
    by (apply FanoutFacts.storage_list_insert_other; reflexivity).
  assert (Hg : storage_list "registration:" s1 = storage_list "registration:" s)
    by (apply FanoutFacts.storage_list_insert_other; reflexivity).
  assert (Hr2 : forall c1, aggregateAnalytics pd env sched2 now2 s1 c1
                = (<["analytics:data" := SAnalytics g now2]> s1,
                   TTLCache.setInCache now2 "analytics-data" (SAnalytics g now2) (10 * 60 * 1000) c1)).
  { intros c1. unfold aggregateAnalytics.
    rewrite (FanoutFacts.getAllTrails_canonical env sched2 s1 H2), Ht.
    rewrite FanoutFacts.getAllRegistrations_value, Hg. reflexivity. }
  rewrite Hr2. simpl.
  split; [unfold s1; by rewrite lookup_insert_eq|]. split; [by rewrite lookup_insert_eq|].
  split; apply CacheFacts.get_after_set_within; lia.
Qed.

Lemma aggregate_twice_same_groupings_witness :
  let s : Storage :=
    <["trail:T1" := SStr "o1"]> (<["registration:R1" := SStr "a"]> ∅) in
  let env : Env :=
    {| TRAIL_DO := fun _ => inr {| status := 200;
                                    body := Some {| name := "Ridge"; active := Some true |} |};
       REGISTRATION_DO := fun oid => inr {| status := 200;
          body := Some {| id := oid; trailId := "T1"; riderName := "A";
                          Docs.timestamp := "2024-03-01T10:00:00.000Z"; Docs.horseCount := 2 |} |} |} in
  let pd (ts : string) : option JSDate :=
    Some {| isoDate := "2024-03-01"; fullYear := 2024; month0 := 2;
            msSinceJan1 := 60 * 86400000; jan1Day := 1 |} in
  (forall b : list (string * SVal), b ≡ₚ b) /\
  (forall b : list (string * SVal), rev b ≡ₚ b) /\
  exists g : Groupings,
    let r1 := aggregateAnalytics pd env (fun b => b) 0 s ∅ in
    let r2 := aggregateAnalytics pd env (@rev _) 5000 r1.1 r1.2 in
    r1.1 !! "analytics:data"%string = Some (SAnalytics g 0) /\
    r2.1 !! "analytics:data"%string = Some (SAnalytics g 5000) /\
    TTLCache.getFromCache 0 "analytics-data" r1.2 = (Some (SAnalytics g 0), r1.2) /\
    TTLCache.getFromCache 5000 "analytics-data" r2.2 = (Some (SAnalytics g 5000), r2.2).
Proof.
  intros s env pd.
  assert (Hid : forall b : list (string * SVal), b ≡ₚ b) by (intros b; reflexivity).
  assert (Hrev : forall b : list (string * SVal), rev b ≡ₚ b)
    by (intros b; symmetry; apply Permutation_rev).
  split; [exact Hid|]. split; [exact Hrev|].
  exact (aggregate_twice_same_groupings pd env (fun b => b) (@rev _) 0 5000 s ∅ Hid Hrev).
Defined.

(* --------------------------------------------------------------------- *)
(* Pagination claims                                                     *)
(* --------------------------------------------------------------------- *)

Module PaginationFacts.
Import Pagination.

Lemma sorted_rows_length (l : list RegistrationTableItem) :
  length (Js.sort_by (fun a b => Js.localeCompare (ti_timestamp b) (ti_timestamp a)) l)
  = length l.
Proof. apply Permutation_length, FanoutFacts.sort_by_perm. Qed.

Lemma clampPage_cases page : clampPage page = None \/ exists p, clampPage page = Some p /\ 1 <= p.
Proof.
  unfold clampPage, num_lt. destruct page as [p|]; [|by left].
  right. destruct (Z.ltb_spec p 1); eexists; split; try reflexivity; lia.
Qed.

Lemma clampLimit_cases limit :
  clampLimit limit = None \/ exists x, clampLimit limit = Some x /\ 1 <= x <= 100.
Proof.
  unfold clampLimit, num_lt. destruct limit as [x|]; [|by left].
  right. destruct (Z.ltb_spec x 1).
  - eexists; split; [reflexivity|lia].
  - destruct (Z.ltb_spec 100 x); eexists; split; try reflexivity; lia.
Qed.

Lemma slice_length {A} (l : list A) start end_ :
  (length (js_slice l start end_) <= Z.to_nat
     ((match end_ with None => 0 | Some k => if Z.ltb k 0 then Z.max (Z.of_nat (length l) + k) 0
                                             else Z.min k (Z.of_nat (length l)) end) -
      (match start with None => 0 | Some k => if Z.ltb k 0 then Z.max (Z.of_nat (length l) + k) 0
                                             else Z.min k (Z.of_nat (length l)) end)))%nat.
Proof. unfold js_slice. apply firstn_le_length. Qed.

End PaginationFacts.

Import Pagination.

(** C7: with page=1 and limit=10 over 25 collected registrations, the view
    reports totalItems=25, totalPages=3, hasNextPage=true and
    hasPrevPage=false, and its data array holds exactly 10 items. *)
Theorem first_page_of_25 (registrationList : list RegistrationTableItem) :
  length registrationList = 25%nat ->
  let r := registrationResponse (Some 1) (Some 10) registrationList in
  totalItems r = 25 /\ totalPages r = Some 3 /\ hasNextPage r = true /\
  hasPrevPage r = false /\ length (data r) = 10%nat.
Proof.
  intros Hlen. unfold registrationResponse.
  pose proof (PaginationFacts.sorted_rows_length registrationList) as Hs.
  rewrite Hlen in Hs.
  set (sl := Js.sort_by _ registrationList) in *.
  simpl. rewrite Hs. simpl.
  split; [reflexivity|]. split; [reflexivity|]. split; [reflexivity|].
  split; [reflexivity|].
  unfold js_slice. rewrite Hs. simpl. rewrite length_firstn. vm_compute (Z.to_nat _). rewrite length_drop, Hs. reflexivity.
Qed.

Lemma first_page_of_25_witness :
  let row := {| ti_id := "r"; ti_date := "2024-03-01"; ti_trail := "Ridge";
                ti_trailId := "T1"; ti_riderName := "A"; ti_horseCount := 2;
                ti_timestamp := "2024-03-01T10:00:00.000Z" |} in
  length (repeat row 25) = 25%nat /\
  let r := registrationResponse (Some 1) (Some 10) (repeat row 25) in
  totalItems r = 25 /\ totalPages r = Some 3 /\ hasNextPage r = true /\
  hasPrevPage r = false /\ length (data r) = 10%nat.
Proof.
  intros row. split; [reflexivity|].
  apply (first_page_of_25 (repeat row 25)). reflexivity.
Defined.

(** C8: page and limit are clamped before use and echoed clamped in the
    response: a page below 1 is treated as 1, a limit below 1 as 10 and a
    limit above 100 as 100 (the response is then exactly the one for the
    clamped value), and the data array never holds more than 100 items. *)
Theorem pagination_params_clamped (page0 limit0 : Num) (l : list RegistrationTableItem) :
  let r := registrationResponse page0 limit0 l in
  page r = clampPage page0 /\ limit r = clampLimit limit0 /\
  (forall p, page0 = Some p -> p < 1 ->
     page r = Some 1 /\ r = registrationResponse (Some 1) limit0 l) /\
  (forall x, limit0 = Some x -> x < 1 ->
     limit r = Some 10 /\ r = registrationResponse page0 (Some 10) l) /\
  (forall x, limit0 = Some x -> 100 < x ->
     limit r = Some 100 /\ r = registrationResponse page0 (Some 100) l) /\
  (length (data r) <= 100)%nat.
Proof.
  intros r. split; [reflexivity|]. split; [reflexivity|].
  split; [|split; [|split]].
  - intros p -> Hp. unfold r, registrationResponse, clampPage, num_lt.
    destruct (Z.ltb_spec p 1); [|lia]. split; reflexivity.
  - intros x -> Hx. unfold r, registrationResponse, clampLimit, num_lt.
    destruct (Z.ltb_spec x 1); [|lia]. simpl. split; reflexivity.
  - intros x -> Hx. unfold r, registrationResponse, clampLimit, num_lt.
    destruct (Z.ltb_spec x 1); [lia|]. destruct (Z.ltb_spec 100 x); [|lia].
    split; reflexivity.
  - unfold r, registrationResponse. simpl.
    set (sl := Js.sort_by _ l).
    eapply Nat.le_trans; [apply PaginationFacts.slice_length|].
    set (n := Z.of_nat (length sl)).
    assert (Hn : 0 <= n) by lia.
    destruct (PaginationFacts.clampPage_cases page0) as [-> | [p [-> Hp]]];
      [simpl; lia|].
    destruct (PaginationFacts.clampLimit_cases limit0) as [-> | [x [-> Hx]]];
      [simpl; lia|].
    simpl.
    destruct (Z.ltb_spec ((p + -1) * x) 0); [nia|].
    destruct (Z.ltb_spec (Z.min ((p + -1) * x + x) n) 0); [lia|].
    lia.
Qed.

Module CoordinatorFacts.
Import Js Docs Coordinator CoordinatorInvariants.

Lemma filter_key_cleared k tid (ts : list Timer) :
  (forall tm, In tm ts -> debounce_key tm = Some k -> tm_id tm = tid) ->
  List.filter (has_debounce_key k) (List.filter (fun t => negb (Nat.eqb (tm_id t) tid)) ts) = [].
Proof.
  induction ts as [|t ts IH]; intros H; [reflexivity|].
  simpl. destruct (Nat.eqb_spec (tm_id t) tid) as [E|E]; simpl.
  - apply IH. intros tm Hin. apply H. right. exact Hin.
  - destruct (has_debounce_key k t) eqn:Hk.
    + exfalso. apply E. apply H; [left; reflexivity|].
      unfold has_debounce_key in Hk. destruct (debounce_key t); [|discriminate].
      apply String.eqb_eq in Hk. subst. reflexivity.
    + apply IH. intros tm Hin. apply H. right. exact Hin.
Qed.

Lemma filter_key_none k (ts : list Timer) :
  (forall tm, In tm ts -> debounce_key tm <> Some k) ->
  List.filter (has_debounce_key k) ts = [].
Proof.
  induction ts as [|t ts IH]; intros H; [reflexivity|].
  simpl. destruct (has_debounce_key k t) eqn:Hk.
  - exfalso. apply (H t); [left; reflexivity|].
    unfold has_debounce_key in Hk. destruct (debounce_key t); [|discriminate].
    apply String.eqb_eq in Hk. subst. reflexivity.
  - apply IH. intros tm Hin. apply H. right. exact Hin.
Qed.

Lemma debounce_key_inv st tm k :
  debounce_inv st -> In tm (timers st) -> debounce_key tm = Some k ->
  cacheInvalidationTimers st !! k = Some (tm_id tm).
Proof.
  intros Hinv Hin Hk. unfold debounce_key in Hk.
  destruct (tm_action tm) as [x|] eqn:Ha; [|discriminate].
  injection Hk as <-. exact (Hinv tm Hin x Ha).
Qed.

Lemma storage_invalidateAllCaches st t : storage (invalidateAllCaches st t) = storage st.
Proof. reflexivity. Qed.

Lemma imm_nil st : immediate_invalidations st st [].
Proof.
  split; [rewrite app_nil_r; reflexivity|]. split; [exists []; rewrite app_nil_r; auto|].
  auto.
Qed.

Lemma imm_set_doc st o doc st' ts :
  immediate_invalidations (set_doc st o doc) st' ts -> immediate_invalidations st st' ts.
Proof. intros H. exact H. Qed.

Lemma imm_set_storage st s st' ts :
  immediate_invalidations (set_storage st s) st' ts -> immediate_invalidations st st' ts.
Proof. intros H. exact H. Qed.

Lemma imm_invalidate st st' t ts :
  immediate_invalidations (invalidateAllCaches st t) st' ts ->
  immediate_invalidations st st' (t :: ts).
Proof.
  intros (Hi & (new & Ht & Ha & Hd) & Hc & Hcl & Hag).
  unfold invalidateAllCaches in *. simpl in *.
  split; [rewrite Hi, <- app_assoc; reflexivity|].
  split; [|auto].
  exists ({| tm_id := nextTimerId st; tm_due := clock st + 100; tm_action := RunAggregation |} :: new).
  split; [rewrite Ht, <- app_assoc; reflexivity|].
  split; [simpl; rewrite Ha; reflexivity|]. constructor; [reflexivity|exact Hd].
Qed.

Lemma debounce_single (st : MgrState) (t : string) :
  debounce_inv st ->
  (forall tm, In tm (timers st) -> tm_id tm <> 0%nat) ->
  List.filter (has_debounce_key (timer_key t)) (timers (debounceInvalidateCache st t)) =
     [{| tm_id := nextTimerId st; tm_due := clock st + 2000; tm_action := DebouncedInvalidate t |}] /\
  cacheInvalidationTimers (debounceInvalidateCache st t) !! timer_key t = Some (nextTimerId st).
Proof.
  intros Hinv Hid.
  unfold debounceInvalidateCache.
  destruct (cacheInvalidationTimers st !! timer_key t) as [tid|] eqn:Hm.
  - destruct (Nat.eqb_spec tid 0) as [E|E].
    + subst tid. simpl. rewrite lookup_insert_eq. split; [|reflexivity].
      rewrite List.filter_app, CoordinatorFacts.filter_key_none.
      * simpl. unfold has_debounce_key. simpl. rewrite String.eqb_refl. reflexivity.
      * intros tm Hin Hk. pose proof (CoordinatorFacts.debounce_key_inv st tm _ Hinv Hin Hk) as Hl.
        rewrite Hm in Hl. injection Hl as Hl. exact (Hid tm Hin (eq_sym Hl)).
    + simpl. rewrite lookup_insert_eq. split; [|reflexivity].
      rewrite List.filter_app, CoordinatorFacts.filter_key_cleared with (tid := tid).
      * simpl. unfold has_debounce_key. simpl. rewrite String.eqb_refl. reflexivity.
      * intros tm Hin Hk. pose proof (CoordinatorFacts.debounce_key_inv st tm _ Hinv Hin Hk) as Hl.
        rewrite Hm in Hl. injection Hl as Hl. symmetry. exact Hl.
  - simpl. rewrite lookup_insert_eq. split; [|reflexivity].
    rewrite List.filter_app, CoordinatorFacts.filter_key_none.
    + simpl. unfold has_debounce_key. simpl. rewrite String.eqb_refl. reflexivity.
    + intros tm Hin Hk. pose proof (CoordinatorFacts.debounce_key_inv st tm _ Hinv Hin Hk) as Hl.
      rewrite Hm in Hl. discriminate.
Qed.

Lemma debounce_log st t :
  invalidations (debounceInvalidateCache st t) = invalidations st /\
  aggregations (debounceInvalidateCache st t) = aggregations st.
Proof.
  unfold debounceInvalidateCache.
  destruct (cacheInvalidationTimers st !! timer_key t) as [tid|];
    [destruct (Nat.eqb tid 0)|]; split; reflexivity.
Qed.

Lemma create_200 rid oid nowIso d st st' t :
  p_trailId d = Some t -> createRegistration rid oid nowIso d st = (200, st') ->
  exists st1, timers st1 = timers st /\ cacheInvalidationTimers st1 = cacheInvalidationTimers st /\
    nextTimerId st1 = nextTimerId st /\ clock st1 = clock st /\
    invalidations st1 = invalidations st /\ aggregations st1 = aggregations st /\
    st' = debounceInvalidateCache st1 t.
Proof.
  intros Hp H. unfold createRegistration in H. rewrite Hp in H.
  destruct (negb (truthy_str (Some t))); [discriminate H|].
  destruct (negb (truthy_sval _)); [discriminate H|].
  destruct (regdo_put _ _ _) as [resp doc].
  destruct (Z.eqb_spec (status resp) 200) as [E|E]; [|injection H as H _; contradiction].
  destruct (updateTrailRegistrationsMap _ _ _) as [s2|]; [|discriminate H].
  injection H as _ <-.
  match goal with |- context [debounceInvalidateCache ?x t] => exists x end. repeat split.
Qed.
End CoordinatorFacts.

Import Coordinator.

(** C4 (counterexample): update does not debounce. Two updates of the same
    registration on trail T1, at 0 ms and 1000 ms, both succeed and each
    invalidates the caches at once, so two re-aggregations run, at 100 ms
    and 1100 ms, instead of one at 3000 ms. *)
Lemma updates_aggregate_twice :
  let '(codes, st) := run_requests all_ids_valid 100
         [(0, Update "r1" "2024-03-01T10:00:00.000Z" horse_update);
          (1000, Update "r1" "2024-03-01T10:00:01.000Z" horse_update)] sample_state in
  codes = [200; 200] /\
  invalidations (run_until 100 10000 st) = [(0, "T1"); (1000, "T1")]%string /\
  aggregations (run_until 100 10000 st) = [100; 1100].
Proof. vm_compute. auto. Qed.

(** C4 (amended): only createRegistration debounces.  Given that every
    pending debounced timer is the one recorded for its key and that timer
    ids are non-zero: debounceInvalidateCache leaves exactly one pending
    debounced timer for the key, the new one, due 2000 ms later and recorded
    under the key; a create on trail t that answers 200 does just that and
    invalidates nothing at once.  When the debounced timer fires, the caches
    are invalidated for t, a re-aggregation timer is set 100 ms later and
    the key is cleared.  An update or delete of a mapped registration never
    debounces: it leaves the debounce map unchanged, and every invalidation
    it makes happens at once with its own re-aggregation timer 100 ms later.
    An update invalidates the old trail of the actor's previous document (if
    it has one) and the new trail when the request moves it; with no
    previous document it invalidates nothing.  A delete answers 200 and
    invalidates the document's trail when the actor held a document, and
    answers 404 with no invalidation otherwise.  So two creates on T1 at
    0 ms and 1000 ms give one invalidation at 3000 ms and one re-aggregation
    at 3100 ms, while two updates 1000 ms apart re-aggregate at 100 ms and
    1100 ms. *)
Theorem create_debounce_single_timer (st : MgrState) (t : string) :
  debounce_inv st ->
  (forall tm, In tm (timers st) -> tm_id tm <> 0%nat) ->
  (List.filter (has_debounce_key (timer_key t)) (timers (debounceInvalidateCache st t)) =
     [{| tm_id := nextTimerId st; tm_due := clock st + 2000; tm_action := DebouncedInvalidate t |}] /\
   cacheInvalidationTimers (debounceInvalidateCache st t) !! timer_key t = Some (nextTimerId st)) /\
  (forall rid oid nowIso d st', p_trailId d = Some t ->
     createRegistration rid oid nowIso d st = (200, st') ->
     List.filter (has_debounce_key (timer_key t)) (timers st') =
       [{| tm_id := nextTimerId st; tm_due := clock st + 2000; tm_action := DebouncedInvalidate t |}] /\
     cacheInvalidationTimers st' !! timer_key t = Some (nextTimerId st) /\
     invalidations st' = invalidations st /\ aggregations st' = aggregations st) /\
  (invalidations (fire st (DebouncedInvalidate t)) = invalidations st ++ [(clock st, t)] /\
   timers (fire st (DebouncedInvalidate t)) =
     timers st ++ [{| tm_id := nextTimerId st; tm_due := clock st + 100; tm_action := RunAggregation |}] /\
   cacheInvalidationTimers (fire st (DebouncedInvalidate t)) !! timer_key t = None) /\
  (forall validId rid oid nowIso d code st',
     storage st !! ("registration:" ++ rid)%string = Some (Aggregator.SStr oid) -> oid <> ""%string ->
     updateRegistration validId rid nowIso d st = inr (code, st') ->
     CoordinatorInvariants.immediate_invalidations st st' (CoordinatorInvariants.update_invalidated (regDocs st !! oid) d)) /\
  (forall validId rid oid code st',
     storage st !! ("registration:" ++ rid)%string = Some (Aggregator.SStr oid) -> oid <> ""%string ->
     deleteRegistration validId rid st = inr (code, st') ->
     code = (match regDocs st !! oid with Some _ => 200 | None => 404 end) /\
     CoordinatorInvariants.immediate_invalidations st st' (CoordinatorInvariants.delete_invalidated (regDocs st !! oid))) /\
  (let '(codes, st') := run_requests all_ids_valid 100
         [(0, Create "r2" "o2" "2024-03-01T10:00:00.000Z" new_registration);
          (1000, Create "r3" "o3" "2024-03-01T10:00:01.000Z" new_registration)] sample_state in
   codes = [200; 200] /\
   invalidations (run_until 100 10000 st') = [(3000, "T1")]%string /\
   aggregations (run_until 100 10000 st') = [3100]) /\
  (let '(codes, st') := run_requests all_ids_valid 100
         [(0, Update "r1" "2024-03-01T10:00:00.000Z" horse_update);
          (1000, Update "r1" "2024-03-01T10:00:01.000Z" horse_update)] sample_state in
   codes = [200; 200] /\
   aggregations (run_until 100 10000 st') = [100; 1100]).
Proof.
  intros Hinv Hid. split; [exact (CoordinatorFacts.debounce_single st t Hinv Hid)|].
  split.
  { intros rid oid nowIso d st' Hp H.
    destruct (CoordinatorFacts.create_200 rid oid nowIso d st st' t Hp H)
      as (st1 & Ht & Hc & Hn & Hcl & Hi & Ha & ->).
    assert (Hinv1 : debounce_inv st1) by (intros tm Hin; rewrite Hc; apply Hinv; rewrite <- Ht; exact Hin).
    assert (Hid1 : forall tm, In tm (timers st1) -> tm_id tm <> 0%nat) by (rewrite Ht; exact Hid).
    destruct (CoordinatorFacts.debounce_single st1 t Hinv1 Hid1) as [Hf Hm].
    destruct (CoordinatorFacts.debounce_log st1 t) as [Hi' Ha'].
    rewrite Hn, Hcl in Hf. rewrite Hn in Hm. rewrite Hi', Ha', Hi, Ha. auto. }
  split.
  { unfold fire, invalidateAllCaches. simpl. split; [reflexivity|]. split; [reflexivity|].
    apply lookup_delete_eq. }
  split.
  { intros validId rid oid nowIso d code st' Hk Ho H.
    unfold updateRegistration in H. rewrite Hk in H. simpl in H.
    assert (Ho' : negb (String.eqb oid "") = true)
      by (destruct (String.eqb_spec oid ""); [contradiction|reflexivity]).
    rewrite Ho' in H. simpl in H.
    destruct (validId oid); simpl in H; [|discriminate].
    destruct (regDocs st !! oid) as [o|] eqn:Hd; simpl in H |- *.
    - apply CoordinatorFacts.imm_set_doc with (o := oid) (doc := Some (merge o d)).
      injection H as _ <-.
      destruct (String.eqb (trailId o) "") eqn:E1; simpl;
        [|apply CoordinatorFacts.imm_invalidate];
        (destruct (truthy_str (p_trailId d) && negb (String.eqb (default "" (p_trailId d)) (trailId o)));
         simpl; [apply CoordinatorFacts.imm_invalidate|]; apply CoordinatorFacts.imm_nil).
    - destruct (_ && _ && _); simpl in H; injection H as _ <-;
        eapply CoordinatorFacts.imm_set_doc; apply CoordinatorFacts.imm_nil. }
  split.
  { intros validId rid oid code st' Hk Ho H.
    unfold deleteRegistration in H. rewrite Hk in H. simpl in H.
    assert (Ho' : negb (String.eqb oid "") = true)
      by (destruct (String.eqb_spec oid ""); [contradiction|reflexivity]).
    rewrite Ho' in H. simpl in H.
    destruct (validId oid); simpl in H; [|discriminate].
    destruct (regDocs st !! oid) as [o|] eqn:Hd; simpl in H |- *.
    - destruct (String.eqb (trailId o) "") eqn:E1; simpl in H.
      + simpl in H. rewrite ?Hd in H. simpl in H. rewrite ?E1 in H. simpl in H. injection H as <- <-.
        split; [reflexivity|]. apply CoordinatorFacts.imm_set_doc with (o := oid) (doc := None).
        apply CoordinatorFacts.imm_set_storage with (s := delete ("registration:" ++ rid)%string (storage st)).
        apply CoordinatorFacts.imm_nil.
      + destruct (storage st !! ("trail_registrations:" ++ trailId o)%string) as [[s0|ids|g lu]|];
          simpl in H; try (destruct (negb (String.eqb s0 "")); simpl in H; [discriminate H|]);
          try discriminate H;
          rewrite E1 in H; simpl in H; injection H as <- <-; (split; [reflexivity|]);
          eapply CoordinatorFacts.imm_set_storage; eapply CoordinatorFacts.imm_set_doc; apply CoordinatorFacts.imm_invalidate; apply CoordinatorFacts.imm_nil.
    - rewrite ?Hd in H. simpl in H. injection H as <- <-.
      split; [reflexivity|]. apply CoordinatorFacts.imm_set_doc with (o := oid) (doc := None).
      apply CoordinatorFacts.imm_set_storage with (s := delete ("registration:" ++ rid)%string (storage st)).
      apply CoordinatorFacts.imm_nil. }
  split; vm_compute; auto.
Qed.

Lemma create_debounce_single_timer_witness :
  debounce_inv sample_state /\
  List.filter (has_debounce_key (timer_key "T1")) (timers (debounceInvalidateCache sample_state "T1")) =
    [{| tm_id := 1%nat; tm_due := 2000; tm_action := DebouncedInvalidate "T1" |}] /\
  (forall code st', updateRegistration all_ids_valid "r1" "2024-03-02T00:00:00.000Z" horse_update sample_state
                      = inr (code, st') ->
     CoordinatorInvariants.immediate_invalidations sample_state st' ["T1"%string]) /\
  (forall code st', deleteRegistration all_ids_valid "r1" sample_state = inr (code, st') ->
     code = 200 /\ CoordinatorInvariants.immediate_invalidations sample_state st' ["T1"%string]).
Proof.
  assert (Hinv : debounce_inv sample_state) by (intros tm Hin; destruct Hin).
  assert (Hid : forall tm, In tm (timers sample_state) -> tm_id tm <> 0%nat)
    by (intros tm Hin; destruct Hin).
  assert (Hk : storage sample_state !! ("registration:" ++ "r1")%string = Some (Aggregator.SStr "o1"))
    by (vm_compute; reflexivity).
  destruct (create_debounce_single_timer sample_state "T1" Hinv Hid)
    as [[Hf _] [_ [_ [Hu [Hd _]]]]].
  split; [exact Hinv|]. split; [exact Hf|]. split.
  - intros code st' H.
    change ["T1"%string] with
      (CoordinatorInvariants.update_invalidated (regDocs sample_state !! "o1"%string) horse_update).
    exact (Hu all_ids_valid "r1" "o1" _ horse_update code st' Hk ltac:(discriminate) H).
  - intros code st' H.
    change ["T1"%string] with
      (CoordinatorInvariants.delete_invalidated (regDocs sample_state !! "o1"%string)).
    change 200 with (match regDocs sample_state !! "o1"%string with Some _ => 200 | None => 404 end).
    exact (Hd all_ids_valid "r1" "o1" code st' Hk ltac:(discriminate) H).
Defined.

(** C9: deleteRegistration removes the index mapping whenever it exists.
    If 'registration:<id>' holds a (valid) actor id and every
    'trail_registrations:' entry holds an id list, the call completes and
    the mapping is gone afterwards, whatever the actor holds; when the
    actor has no document, the call answers 404 and the only storage
    change is the removal of the mapping. *)
Theorem delete_removes_mapping (validId : string -> bool) (rid oid : string) (st : MgrState) :
  storage st !! ("registration:" ++ rid)%string = Some (Aggregator.SStr oid) ->
  oid <> ""%string -> validId oid = true ->
  (forall k v, storage st !! k = Some v -> String.prefix "trail_registrations:" k = true ->
     exists ids, v = Aggregator.SIds ids) ->
  exists code st',
    deleteRegistration validId rid st = inr (code, st') /\
    storage st' !! ("registration:" ++ rid)%string = None /\
    (regDocs st !! oid = None ->
       code = 404 /\ storage st' = delete ("registration:" ++ rid)%string (storage st)).
Proof.
  intros Hmap Hne Hvalid Hwf.
  unfold deleteRegistration. rewrite Hmap.
  assert (Ht : truthy_sval (Some (Aggregator.SStr oid)) = true).
  { simpl. destruct (String.eqb_spec oid ""); [contradiction|reflexivity]. }
  rewrite Ht. simpl. rewrite Hvalid. simpl.
  destruct (regDocs st !! oid) as [d|] eqn:Hd; simpl.
  - destruct (String.eqb_spec (Docs.trailId d) "") as [E|E]; simpl.
    + simpl. rewrite E. simpl.
      eexists _, _. split; [reflexivity|]. split; [apply lookup_delete_eq|discriminate].
    + assert (Hp : String.prefix "trail_registrations:" ("trail_registrations:" ++ Docs.trailId d) = true)
        by (induction (Docs.trailId d); reflexivity).
      destruct (storage st !! ("trail_registrations:" ++ Docs.trailId d)%string) as [w|] eqn:Hw.
      * destruct (Hwf _ _ Hw Hp) as [ids ->]. simpl.
        destruct (String.eqb_spec (Docs.trailId d) "") as [E'|E']; [contradiction|]. simpl.
        eexists _, _. split; [reflexivity|]. split; [|discriminate].
        rewrite CoordinatorFacts.storage_invalidateAllCaches. simpl.
        apply lookup_delete_eq.
      * simpl.
        destruct (String.eqb_spec (Docs.trailId d) "") as [E'|E']; [contradiction|]. simpl.
        eexists _, _. split; [reflexivity|]. split; [|discriminate].
        rewrite CoordinatorFacts.storage_invalidateAllCaches. simpl.
        apply lookup_delete_eq.
  - simpl.
    eexists _, _. split; [reflexivity|]. split; [apply lookup_delete_eq|].
    intros _. split; reflexivity.
Qed.

Lemma delete_removes_mapping_witness :
  exists code st',
    deleteRegistration all_ids_valid "r1" (set_doc sample_state "o1" None) = inr (code, st') /\
    storage st' !! "registration:r1"%string = None /\
    (regDocs (set_doc sample_state "o1" None) !! "o1"%string = None ->
       code = 404 /\ storage st' = delete "registration:r1"%string (storage (set_doc sample_state "o1" None))).
Proof.
  apply (delete_removes_mapping all_ids_valid "r1" "o1" (set_doc sample_state "o1" None)).
  - reflexivity.
  - discriminate.
  - reflexivity.
  - intros k v Hk Hp. simpl in Hk.
    apply lookup_insert_Some in Hk as [[<- <-]|[_ Hk]]; [discriminate Hp|].
    apply lookup_insert_Some in Hk as [[<- <-]|[_ Hk]]; [discriminate Hp|].
    apply lookup_insert_Some in Hk as [[<- <-]|[_ Hk]]; [eexists; reflexivity|].
    rewrite lookup_empty in Hk. discriminate.
Defined.

Module TrailListingFacts.
Import Js Docs Aggregator TrailListing.

Definition trail_regs_wf (s : Storage) : Prop :=
  forall k v, s !! k = Some v -> String.prefix "trail_registrations:" k = true ->
    exists ids, v = SIds ids.

Definition listed_doc (env : Env) (e : string * SVal) : option TrailData :=
  match fetched_doc env e with
  | Some d => if bool_decide (active d = Some false) then None else Some d
  | None => None
  end.

Lemma prefix_trail_registrations t :
  String.prefix "trail_registrations:" ("trail_registrations:" ++ t) = true.
Proof. destruct t; reflexivity. Qed.

Lemma reg_count_ok s t : trail_regs_wf s -> exists n, reg_count s t = inr n.
Proof.
  intros Hwf. unfold reg_count.
  destruct (s !! ("trail_registrations:" ++ t)%string) as [v|] eqn:Hv.
  - destruct (Hwf _ _ Hv (prefix_trail_registrations t)) as [ids ->]. eexists. reflexivity.
  - eexists. reflexivity.
Qed.

Lemma horse_count_ok env s t : trail_regs_wf s -> exists n, horse_count env s t = inr n.
Proof.
  intros Hwf. unfold horse_count.
  destruct (s !! ("trail_registrations:" ++ t)%string) as [v|] eqn:Hv.
  - destruct (Hwf _ _ Hv (prefix_trail_registrations t)) as [ids ->]. eexists. reflexivity.
  - eexists. reflexivity.
Qed.

Lemma cached_count_ok now key n c : exists v c', cached_count now key (inr n) c = (inr v, c').
Proof.
  unfold cached_count. destruct (TTLCache.getFromCache now key c) as [[v|] c1].
  - eexists _, _. reflexivity.
  - eexists _, _. reflexivity.
Qed.

Lemma trail_callback_doc env now s e c :
  trail_regs_wf s ->
  option_map (fun t : TrailOut => t.1.1) (trail_callback env now s e c).1 = listed_doc env e.
Proof.
  intros Hwf. unfold trail_callback, listed_doc, fetched_doc.
  destruct e as [k v]. cbn zeta beta. cbn [fst snd].
  generalize (substring_from 6 k) as tid. intros tid.
  destruct v as [oid| |]; try reflexivity.
  destruct (TRAIL_DO env oid) as [err|r]; [reflexivity|].
  destruct (Z.eqb (status r) 200); simpl; [|reflexivity].
  unfold json. destruct (body r) as [d|]; simpl; [|reflexivity].
  destruct (reg_count_ok s tid Hwf) as [n1 ->].
  destruct (cached_count_ok now ("trail-reg-count:" ++ tid) n1 c) as [rc [c1 ->]].
  destruct (horse_count_ok env s tid Hwf) as [n2 ->].
  destruct (cached_count_ok now ("trail-horse-count:" ++ tid) n2 c1) as [hc [c2 ->]].
  destruct (bool_decide (active d = Some false)); reflexivity.
Qed.

Lemma run_batch_docs env now s b c :
  trail_regs_wf s ->
  map (fun t : TrailOut => t.1.1) (omap (fun r => r) (run_batch env now s b c).1) =
  omap (listed_doc env) b.
Proof.
  intros Hwf. revert c. induction b as [|e b IH]; intros c; [reflexivity|].
  simpl. pose proof (trail_callback_doc env now s e c Hwf) as He.
  destruct (trail_callback env now s e c) as [r c1]. simpl in He.
  specialize (IH c1). destruct (run_batch env now s b c1) as [rs c2]. simpl in *.
  rewrite <- He. destruct r as [t|]; simpl; [f_equal|]; exact IH.
Qed.

Lemma run_batches_docs env now s bs trails c :
  trail_regs_wf s ->
  map (fun t : TrailOut => t.1.1) (run_batches env now s bs trails c).1 =
  map (fun t : TrailOut => t.1.1) trails ++ omap (listed_doc env) (concat bs).
Proof.
  intros Hwf. revert trails c. induction bs as [|b bs IH]; intros trails c.
  - simpl. by rewrite app_nil_r.
  - simpl. pose proof (run_batch_docs env now s b c Hwf) as Hb.
    destruct (run_batch env now s b c) as [rs c1]. simpl in Hb.
    rewrite IH, map_app, Hb, omap_app. by rewrite app_assoc.
Qed.

End TrailListingFacts.

Import TrailListing.

(** C10: on a cache miss, the trail listing keeps exactly the trails whose
    actor fetch succeeds with active not false. When 'all-trails' is not
    cached and every 'trail_registrations:' entry holds an id list,
    getAllTrails answers a list, caches that same list under 'all-trails'
    for one minute, and the documents of the list are, in listing order,
    those of the 'trail:' entries whose actor fetch returns 200 with a
    document whose active field is not false. *)
Theorem getAllTrails_lists_active (env : Aggregator.Env) (now : Z) (s : Aggregator.Storage)
    (c : TCache) :
  TrailListingFacts.trail_regs_wf s ->
  (TTLCache.getFromCache now "all-trails" c).1 = None ->
  exists trails,
    (getAllTrails env now s c).1 = CTrails trails /\
    (getAllTrails env now s c).2 !! "all-trails"%string =
      Some {| TTLCache.data := CTrails trails; TTLCache.expires := now + 60 * 1000 |} /\
    map (fun t : TrailOut => t.1.1) trails =
      omap (fun e => match fetched_doc env e with
                     | Some d => if bool_decide (Docs.active d = Some false) then None else Some d
                     | None => None
                     end) (Aggregator.storage_list "trail:" s).
Proof.
  intros Hwf Hmiss. unfold getAllTrails.
  destruct (TTLCache.getFromCache now "all-trails" c) as [[v|] c1]; simpl in Hmiss; [discriminate|].
  pose proof (TrailListingFacts.run_batches_docs env now s
               (Aggregator.make_batches 10 (Aggregator.storage_list "trail:" s)) [] c1 Hwf) as H.
  destruct (run_batches env now s (Aggregator.make_batches 10 (Aggregator.storage_list "trail:" s)) [] c1)
    as [trails c2].
  simpl in H. rewrite FanoutFacts.concat_make_batches in H.
  exists trails. split; [reflexivity|]. split.
  - simpl. unfold TTLCache.setInCache. apply lookup_insert_eq.
  - exact H.
Qed.

Lemma getAllTrails_lists_active_witness :
  exists trails,
    (getAllTrails sample_trail_env 0 sample_trail_storage ∅).1 = CTrails trails /\
    (getAllTrails sample_trail_env 0 sample_trail_storage ∅).2 !! "all-trails"%string =
      Some {| TTLCache.data := CTrails trails; TTLCache.expires := 0 + 60 * 1000 |} /\
    map (fun t : TrailOut => t.1.1) trails =
      omap (fun e => match fetched_doc sample_trail_env e with
                     | Some d => if bool_decide (Docs.active d = Some false) then None else Some d
                     | None => None
                     end) (Aggregator.storage_list "trail:" sample_trail_storage).
Proof.
  apply (getAllTrails_lists_active sample_trail_env 0 sample_trail_storage ∅).
  - intros k v Hk Hp. unfold sample_trail_storage in Hk.
    apply lookup_insert_Some in Hk as [[<- <-]|[_ Hk]]; [discriminate Hp|].
    apply lookup_insert_Some in Hk as [[<- <-]|[_ Hk]]; [discriminate Hp|].
    apply lookup_insert_Some in Hk as [[<- <-]|[_ Hk]]; [eexists; reflexivity|].
    rewrite lookup_empty in Hk. discriminate.
  - reflexivity.
Defined.

Module RoutingFacts.
Import Js Routing.

Lemma split_segment x : segment x = true -> split_on slash x = [x].
Proof.
  induction x as [|c x IH]; intros H; [reflexivity|].
  simpl in H. apply andb_true_iff in H as [Hc Hx].
  simpl. rewrite IH by exact Hx. apply negb_true_iff in Hc. rewrite Hc. reflexivity.
Qed.

Lemma split_segment_app x y :
  segment x = true -> split_on slash (x ++ String slash y) = x :: split_on slash y.
Proof.
  induction x as [|c x IH]; intros H.
  - simpl. rewrite ?Ascii.eqb_refl. reflexivity.
  - simpl in H. apply andb_true_iff in H as [Hc Hx].
    simpl. rewrite IH by exact Hx. apply negb_true_iff in Hc. rewrite Hc. reflexivity.
Qed.

Lemma eqb_app_nonempty x c y : String.eqb (x ++ String c y) x = false.
Proof.
  apply String.eqb_neq. induction x as [|a x IH]; intros H; [discriminate|].
  injection H as H. exact (IH H).
Qed.

Lemma string_app_cons c s t : (String c s ++ t)%string = String c (s ++ t).
Proof. reflexivity. Qed.

Lemma string_app_nil t : (""%string ++ t)%string = t.
Proof. reflexivity. Qed.

Lemma segment_nonempty_id id :
  id <> ""%string -> truthy_id (Some id) = Some id.
Proof. intros H. unfold truthy_id. destruct (String.eqb_spec id ""); [contradiction|reflexivity]. Qed.

End RoutingFacts.

Import Routing.

(** X1: Routing of the per-id endpoints.  For an id that is non-empty and has
    no '/', TrailManagerDO.fetch sends GET, PUT and DELETE on
    /api/trails/<id> to getTrail, updateTrail and deleteTrail of that id,
    GET on /api/trails/<id>/registrations to getTrailRegistrations, POST
    on /api/trails/<id>/generate-qr to generateTrailQRCode, GET on
    /api/public/trails/<id> to getPublicTrailInfo, and GET and PUT on
    /api/registrations/<id> to getRegistration and updateRegistration;
    DELETE on /api/registrations/<id> reaches deleteRegistration of the id,
    except for the id 'flush-all', which flushes all registrations. *)
Theorem route_id_endpoints (id : string) :
  segment id = true -> id <> ""%string ->
  manager_route GET ("/api/trails/" ++ id) = GetTrail id /\
  manager_route PUT ("/api/trails/" ++ id) = UpdateTrail id /\
  manager_route DELETE ("/api/trails/" ++ id) = DeleteTrail id /\
  manager_route GET ("/api/trails/" ++ id ++ "/registrations") = TrailRegistrations id /\
  manager_route POST ("/api/trails/" ++ id ++ "/generate-qr") = GenerateTrailQRCode id /\
  manager_route GET ("/api/public/trails/" ++ id) = PublicTrailInfo (Some id) /\
  manager_route GET ("/api/registrations/" ++ id) = GetRegistration id /\
  manager_route PUT ("/api/registrations/" ++ id) = UpdateRegistration id /\
  manager_route DELETE ("/api/registrations/" ++ id) =
    (if String.eqb id "flush-all" then FlushAllRegistrations else DeleteRegistration id).
Proof.
  intros Hseg Hne.
  pose proof (RoutingFacts.split_segment id Hseg) as Hs.
  assert (Hr : split_on slash (id ++ "/registrations") =
               id :: split_on slash "registrations")
    by exact (RoutingFacts.split_segment_app id "registrations" Hseg).
  assert (Hq : split_on slash (id ++ "/generate-qr") =
               id :: split_on slash "generate-qr")
    by exact (RoutingFacts.split_segment_app id "generate-qr" Hseg).
  pose proof (RoutingFacts.segment_nonempty_id id Hne) as Ht.
  assert (Er : String.eqb (id ++ "/registrations") id = false)
    by exact (RoutingFacts.eqb_app_nonempty id slash "registrations").
  assert (Eq : String.eqb (id ++ "/generate-qr") id = false)
    by exact (RoutingFacts.eqb_app_nonempty id slash "generate-qr").
  unfold manager_route, trail_route, registration_route, getIdFromPath.
  repeat rewrite ?RoutingFacts.string_app_cons, ?RoutingFacts.string_app_nil.
  assert (Hid : String.eqb id "" = false) by (apply String.eqb_neq; exact Hne).
  assert (Hp : String.prefix "" id = true) by (destruct id; reflexivity).
  repeat split; simpl; rewrite ?Hs, ?Hr, ?Hq; simpl; rewrite ?Hid, ?Hp; simpl;
    repeat rewrite ?RoutingFacts.string_app_cons, ?RoutingFacts.string_app_nil;
    rewrite ?String.eqb_refl, ?Er, ?Eq, ?andb_false_r; simpl; try reflexivity;
    destruct (String.eqb id "flush-all"); simpl; rewrite ?Hs, ?Hid; simpl;
    rewrite ?String.eqb_refl; reflexivity.
Qed.

Lemma route_id_endpoints_witness :
  manager_route GET ("/api/trails/" ++ "abc") = GetTrail "abc" /\
  manager_route PUT ("/api/trails/" ++ "abc") = UpdateTrail "abc" /\
  manager_route DELETE ("/api/trails/" ++ "abc") = DeleteTrail "abc" /\
  manager_route GET ("/api/trails/" ++ "abc" ++ "/registrations") = TrailRegistrations "abc" /\
  manager_route POST ("/api/trails/" ++ "abc" ++ "/generate-qr") = GenerateTrailQRCode "abc" /\
  manager_route GET ("/api/public/trails/" ++ "abc") = PublicTrailInfo (Some "abc"%string) /\
  manager_route GET ("/api/registrations/" ++ "abc") = GetRegistration "abc" /\
  manager_route PUT ("/api/registrations/" ++ "abc") = UpdateRegistration "abc" /\
  manager_route DELETE ("/api/registrations/" ++ "abc") =
    (if String.eqb "abc" "flush-all" then FlushAllRegistrations else DeleteRegistration "abc").
Proof. apply (route_id_endpoints "abc"); [reflexivity | discriminate]. Defined.

(* ===================================================================== *)
(* Further properties of the code                                        *)
(* ===================================================================== *)

Module ExtraFacts.
Import TTLCache Docs Coordinator.

Lemma cleanup_lookup {A} now k (c : Cache A) :
  cleanup now c !! k = match c !! k with
                       | Some e => if Z.ltb (expires e) now then None else Some e
                       | None => None end.
Proof.
  unfold cleanup. rewrite map_lookup_filter.
  destruct (c !! k) as [e|]; simpl; [|reflexivity].
  destruct (Z.ltb (expires e) now); reflexivity.
Qed.

Lemma fold_invalidate_lookup {A} (ps : list string) (c : Cache A) k :
  fold_left (fun c p => invalidateCache p c) ps c !! k =
  if existsb (fun p => String.prefix p k) ps then None else c !! k.
Proof.
  revert c. induction ps as [|p ps IH]; intros c; [reflexivity|].
  simpl. rewrite IH, CacheFacts.lookup_invalidate.
  destruct (String.prefix p k); simpl; [destruct existsb|]; reflexivity.
Qed.

Lemma invalidateAllCaches_cache_lookup st t k :
  cache (invalidateAllCaches st t) !! k =
  if existsb (fun p => String.prefix p k) (invalidated_prefixes t) then None else cache st !! k.
Proof. apply fold_invalidate_lookup. Qed.

Lemma prefixes_miss_registration_key t rid :
  existsb (fun p => String.prefix p ("registration:" ++ rid)) (invalidated_prefixes t) = false.
Proof.
  unfold invalidated_prefixes. destruct (String.eqb t ""); reflexivity.
Qed.

Lemma invalidate_keeps_registration_key st t rid :
  cache (invalidateAllCaches st t) !! ("registration:" ++ rid)%string =
  cache st !! ("registration:" ++ rid)%string.
Proof.
  rewrite invalidateAllCaches_cache_lookup, prefixes_miss_registration_key.
  reflexivity.
Qed.

Lemma set_doc_none_absent st oid : regDocs st !! oid = None -> set_doc st oid None = st.
Proof.
  intros H. destruct st; unfold set_doc; simpl in *. f_equal. by apply delete_id.
Qed.


End ExtraFacts.

Module CreateFacts.
Import TTLCache Js Docs Coordinator.

Lemma debounce_fields st t :
  storage (debounceInvalidateCache st t) = storage st /\
  regDocs (debounceInvalidateCache st t) = regDocs st /\
  cacheInvalidationTimers (debounceInvalidateCache st t) !! timer_key t = Some (nextTimerId st) /\
  In {| tm_id := nextTimerId st; tm_due := clock st + 2000; tm_action := DebouncedInvalidate t |}
     (timers (debounceInvalidateCache st t)).
Proof.
  unfold debounceInvalidateCache.
  destruct (cacheInvalidationTimers st !! timer_key t) as [tid|];
    [destruct (Nat.eqb tid 0)|]; simpl;
    (split; [reflexivity|split; [reflexivity|split; [apply lookup_insert_eq|]]]);
    apply in_or_app; right; left; reflexivity.
Qed.

Lemma create_success_core rid oid nowIso d st t ids :
  p_trailId d = Some t -> t <> ""%string ->
  truthy_sval (storage st !! ("trail:" ++ t)%string) = true ->
  regDocs st !! oid = None ->
  truthy_str (p_riderName d) = true -> truthy_num (p_horseCount d) = true ->
  (storage st !! ("trail_registrations:" ++ t)%string = Some (Aggregator.SIds ids) \/
   storage st !! ("trail_registrations:" ++ t)%string = None /\ ids = []) ->
  exists r, id r = rid /\ trailId r = t /\
    createRegistration rid oid nowIso d st =
      (200, debounceInvalidateCache
              (set_storage (set_doc st oid (Some r))
                 (<[("trail_registrations:" ++ t)%string := Aggregator.SIds (ids ++ [rid])]>
                   (<[("registration:" ++ rid)%string := Aggregator.SStr oid]> (storage st)))) t).
Proof.
  intros Hp Hne Htr Hd Hr Hh Hl.
  destruct d as [pi pt pr pts ph]; simpl in *; subst pt.
  unfold createRegistration; simpl.
  assert (Ht : negb (String.eqb t "") = true)
    by (destruct (String.eqb_spec t ""); [contradiction|reflexivity]).
  rewrite Ht, Htr, Hd. simpl. rewrite Ht, Hr, Hh. simpl.
  eexists. split; [|split].
  3: { unfold updateTrailRegistrationsMap.
       rewrite lookup_insert_ne by (intros E; discriminate E).
       destruct Hl as [Hl|[Hl ->]]; rewrite Hl; reflexivity. }
  all: destruct (truthy_str pts); reflexivity.
Qed.

End CreateFacts.

Module TimerFacts.
Import TTLCache Js Docs Coordinator CoordinatorInvariants.

Lemma timers_ok_ext st st' :
  timers st' = timers st -> cacheInvalidationTimers st' = cacheInvalidationTimers st ->
  nextTimerId st' = nextTimerId st -> timers_ok st -> timers_ok st'.
Proof.
  intros Ht Hm Hn (Hi & Hz & Hnz & Hnd & Hlt). unfold timers_ok, debounce_inv in *.
  rewrite Ht, Hm, Hn. repeat split; assumption.
Qed.

Lemma filter_in_id tid (ts : list Timer) tm :
  In tm (List.filter (fun t => negb (Nat.eqb (tm_id t) tid)) ts) -> In tm ts /\ tm_id tm <> tid.
Proof.
  intros H. apply filter_In in H as [H1 H2]. split; [exact H1|].
  apply negb_true_iff, Nat.eqb_neq in H2. exact H2.
Qed.

Lemma nodup_filter_ids (f : Timer -> bool) ts :
  NoDup (map tm_id ts) -> NoDup (map tm_id (List.filter f ts)).
Proof.
  induction ts as [|t ts IH]; intros H; simpl; [constructor|].
  inversion H as [|? ? Hn Hnd]; subst.
  destruct (f t); simpl; [|auto].
  constructor; [|auto].
  intros Hin. apply Hn. apply list_elem_of_In in Hin. apply list_elem_of_In.
  apply in_map_iff in Hin as (t' & Ht' & Hin).
  apply filter_In in Hin as [Hin _]. rewrite <- Ht'. apply in_map. exact Hin.
Qed.

Lemma clearTimeout_ok st tid : timers_ok st -> timers_ok (clearTimeout st tid).
Proof.
  intros (Hi & Hz & Hnz & Hnd & Hlt). unfold timers_ok, debounce_inv in *; simpl.
  repeat split; try assumption.
  - intros tm Hin x Hx. apply filter_in_id in Hin as [Hin _]. exact (Hi tm Hin x Hx).
  - apply nodup_filter_ids. exact Hnd.
  - apply List.Forall_forall. intros tm Hin. apply filter_in_id in Hin as [Hin _].
    rewrite List.Forall_forall in Hlt. exact (Hlt tm Hin).
Qed.

Lemma setTimeout_fresh st d a :
  nextTimerId st <> 0%nat ->
  NoDup (map tm_id (timers st)) -> Forall (fun tm => (tm_id tm < nextTimerId st)%nat) (timers st) ->
  NoDup (map tm_id (timers (setTimeout st d a).1)) /\
  Forall (fun tm => (tm_id tm < nextTimerId (setTimeout st d a).1)%nat) (timers (setTimeout st d a).1).
Proof.
  intros Hnz Hnd Hlt. simpl. split.
  - rewrite map_app. simpl. apply NoDup_app. split; [exact Hnd|]. split.
    + intros i Hi Hi'. apply list_elem_of_singleton in Hi'. subst i.
      apply list_elem_of_In, in_map_iff in Hi as (tm & Htm & Hin).
      rewrite List.Forall_forall in Hlt. specialize (Hlt tm Hin). lia.
    + apply NoDup_singleton.
  - apply Forall_app. split.
    + eapply Forall_impl; [exact Hlt|]. intros tm H. simpl in H. lia.
    + constructor; [simpl; lia|constructor].
Qed.

Lemma invalidateAllCaches_ok st t : timers_ok st -> timers_ok (invalidateAllCaches st t).
Proof.
  intros Hok. pose proof Hok as (Hi & Hz & Hnz & Hnd & Hlt).
  unfold invalidateAllCaches.
  match goal with |- timers_ok (setTimeout ?s _ _).1 => set (st1 := s) end.
  destruct (setTimeout_fresh st1 100 RunAggregation Hnz Hnd Hlt) as [Hnd' Hlt'].
  unfold timers_ok, debounce_inv. simpl in *. repeat split; try assumption; [|lia].
  intros tm Hin x Hx. apply in_app_or in Hin as [Hin|[<-|[]]]; [|discriminate].
  exact (Hi tm Hin x Hx).
Qed.

Lemma debounce_ok st t : timers_ok st -> timers_ok (debounceInvalidateCache st t).
Proof.
  intros Hok. unfold debounceInvalidateCache.
  set (key := timer_key t).
  assert (H1 : timers_ok (match cacheInvalidationTimers st !! key with
                          | Some tid => if Nat.eqb tid 0 then st else clearTimeout st tid
                          | None => st end) /\
               cacheInvalidationTimers (match cacheInvalidationTimers st !! key with
                          | Some tid => if Nat.eqb tid 0 then st else clearTimeout st tid
                          | None => st end) = cacheInvalidationTimers st /\
               forall tm x, In tm (timers (match cacheInvalidationTimers st !! key with
                          | Some tid => if Nat.eqb tid 0 then st else clearTimeout st tid
                          | None => st end)) ->
                 tm_action tm = DebouncedInvalidate x -> timer_key x <> key).
  { pose proof Hok as (Hi & Hz & Hnz & Hnd & Hlt).
    destruct (cacheInvalidationTimers st !! key) as [tid|] eqn:Hk.
    - assert (Htid : tid <> 0%nat) by exact (Hz key tid Hk).
      destruct (Nat.eqb_spec tid 0) as [E|_]; [contradiction|].
      split; [apply clearTimeout_ok; exact Hok|]. split; [reflexivity|].
      intros tm x Hin Hx Ekey. simpl in Hin. apply filter_in_id in Hin as [Hin Hne].
      pose proof (Hi tm Hin x Hx) as Hl. rewrite Ekey, Hk in Hl. injection Hl as Hl.
      apply Hne. symmetry. exact Hl.
    - split; [exact Hok|]. split; [reflexivity|].
      intros tm x Hin Hx Ekey. pose proof (Hi tm Hin x Hx) as Hl. rewrite Ekey, Hk in Hl.
      discriminate. }
  destruct H1 as (Hok1 & Hm1 & Hno).
  revert Hok1 Hm1 Hno.
  generalize (match cacheInvalidationTimers st !! key with
              | Some tid => if Nat.eqb tid 0 then st else clearTimeout st tid
              | None => st end) as st1.
  intros st1 Hok1 Hm1 Hno.
  pose proof Hok1 as (Hi & Hz & Hnz & Hnd & Hlt).
  destruct (setTimeout_fresh st1 2000 (DebouncedInvalidate t) Hnz Hnd Hlt) as [Hnd' Hlt'].
  unfold timers_ok, debounce_inv. simpl in *. repeat split; try assumption.
  - intros tm Hin x Hx. apply in_app_or in Hin as [Hin|[<-|[]]].
    + rewrite lookup_insert_ne; [exact (Hi tm Hin x Hx)|].
      intros E. apply (Hno tm x Hin Hx). symmetry. exact E.
    + simpl in Hx. injection Hx as <-. apply lookup_insert_eq.
  - apply map_Forall_insert_2; [exact Hnz|exact Hz].
  - lia.
Qed.

End TimerFacts.

Module TimerFacts2.
Import TTLCache Js Docs Coordinator CoordinatorInvariants TimerFacts.

Lemma set_clock_ok st c : timers_ok st -> timers_ok (set_clock st c).
Proof. apply timers_ok_ext; reflexivity. Qed.
Lemma set_doc_ok st o d : timers_ok st -> timers_ok (set_doc st o d).
Proof. apply timers_ok_ext; reflexivity. Qed.
Lemma set_storage_ok st s : timers_ok st -> timers_ok (set_storage st s).
Proof. apply timers_ok_ext; reflexivity. Qed.

Lemma fire_ok st tm c :
  timers_ok st -> In tm (timers st) ->
  timers_ok (fire (set_clock (clearTimeout st (tm_id tm)) c) (tm_action tm)).
Proof.
  intros Hok Hin.
  assert (Hok0 : timers_ok (set_clock (clearTimeout st (tm_id tm)) c))
    by (apply set_clock_ok, clearTimeout_ok, Hok).
  destruct (tm_action tm) as [x|] eqn:Ha; simpl.
  - pose proof (invalidateAllCaches_ok _ x Hok0) as Hok1.
    pose proof Hok1 as (Hi & Hz & Hnz & Hnd & Hlt).
    unfold timers_ok, debounce_inv. simpl in *. repeat split; try assumption.
    + intros tm' Hin' y Hy.
      destruct (String.eqb_spec (timer_key y) (timer_key x)) as [E|E].
      * exfalso. unfold invalidateAllCaches in Hin'. simpl in Hin'.
        apply in_app_or in Hin' as [Hin'|[<-|[]]]; [|discriminate].
        apply TimerFacts.filter_in_id in Hin' as [Hin' Hne].
        destruct Hok as (Hi0 & _).
        pose proof (Hi0 tm' Hin' y Hy) as H1. pose proof (Hi0 tm Hin x Ha) as H2.
        rewrite E, H2 in H1. injection H1 as H1. apply Hne. symmetry. exact H1.
      * rewrite lookup_delete_ne by (intros E'; apply E; symmetry; exact E').
        exact (Hi tm' Hin' y Hy).
    + apply map_Forall_delete. exact Hz.
  - revert Hok0. apply timers_ok_ext; reflexivity.
Qed.

Lemma earliest_in ts tm : earliest ts = Some tm -> In tm ts.
Proof.
  unfold earliest.
  assert (H : forall acc, fold_left (fun acc t => match acc with
                          | None => Some t
                          | Some b => if earlier t b then Some t else acc
                          end) ts acc = Some tm -> acc = Some tm \/ In tm ts).
  { induction ts as [|t ts IH]; intros acc Hf; [left; exact Hf|].
    simpl in Hf. apply IH in Hf as [Hf|Hf]; [|right; right; exact Hf].
    destruct acc as [b|].
    - destruct (earlier t b); [right; left; injection Hf as ->; reflexivity|left; exact Hf].
    - right. left. injection Hf as ->. reflexivity. }
  intros Hf. apply H in Hf as [Hf|Hf]; [discriminate|exact Hf].
Qed.

Lemma run_until_ok fuel t st : timers_ok st -> timers_ok (run_until fuel t st).
Proof.
  revert st. induction fuel as [|f IH]; intros st Hok; simpl; [exact Hok|].
  destruct (earliest (timers st)) as [tm|] eqn:He.
  - destruct (Z.leb (tm_due tm) t).
    + apply IH. apply fire_ok; [exact Hok|]. apply earliest_in. exact He.
    + apply set_clock_ok. exact Hok.
  - apply set_clock_ok. exact Hok.
Qed.

Lemma create_ok rid oid nowIso d st :
  timers_ok st -> timers_ok (createRegistration rid oid nowIso d st).2.
Proof.
  intros Hok. unfold createRegistration.
  destruct (negb (truthy_str (p_trailId d))); [exact Hok|].
  destruct (negb (truthy_sval _)); [exact Hok|].
  destruct (regdo_put _ _ _) as [resp doc]. simpl.
  destruct (Z.eqb (status resp) 200); simpl.
  - destruct (updateTrailRegistrationsMap _ _ _); simpl.
    + apply debounce_ok, set_storage_ok, set_doc_ok, Hok.
    + apply set_storage_ok, set_doc_ok, Hok.
  - apply set_doc_ok, Hok.
Qed.

Lemma update_ok validId rid nowIso d st code st' :
  timers_ok st -> updateRegistration validId rid nowIso d st = inr (code, st') -> timers_ok st'.
Proof.
  intros Hok H. unfold updateRegistration in H.
  destruct (truthy_sval _); simpl in H; [|injection H as _ <-; exact Hok].
  destruct (idFromString _ _) as [e|oid]; simpl in H; [discriminate|].
  destruct (regdo_put _ _ _) as [resp doc]. simpl in H.
  apply set_doc_ok with (o := oid) (d := doc) in Hok.
  destruct (Z.eqb (status resp) 200); simpl in H; [|injection H as _ <-; exact Hok].
  injection H as _ <-.
  repeat match goal with
  | |- context [match ?x with _ => _ end] => destruct x
  | |- context [if ?b then _ else _] => destruct b
  end; repeat apply invalidateAllCaches_ok; exact Hok.
Qed.

Lemma delete_ok validId rid st code st' :
  timers_ok st -> deleteRegistration validId rid st = inr (code, st') -> timers_ok st'.
Proof.
  intros Hok H. unfold deleteRegistration in H.
  destruct (truthy_sval _); simpl in H; [|injection H as _ <-; exact Hok].
  destruct (idFromString _ _) as [e|oid]; simpl in H; [discriminate|].
  destruct (if Z.eqb _ 200 then _ else _) as [e|[tid s]]; simpl in H; [discriminate|].
  destruct (regdo_delete _) as [resp doc]. simpl in H.
  destruct (_ && _); simpl in H; injection H as _ <-;
    [apply invalidateAllCaches_ok|]; apply set_doc_ok, set_storage_ok, Hok.
Qed.

Lemma handle_ok validId r st code st' :
  timers_ok st -> handle validId r st = inr (code, st') -> timers_ok st'.
Proof.
  intros Hok H. destruct r as [rid oid nowIso d|rid nowIso d|rid]; simpl in H.
  - injection H as H. replace st' with (createRegistration rid oid nowIso d st).2
      by (rewrite H; reflexivity).
    apply create_ok, Hok.
  - exact (update_ok _ _ _ _ _ _ _ Hok H).
  - exact (delete_ok _ _ _ _ _ Hok H).
Qed.

Lemma run_requests_ok validId fuel reqs st :
  timers_ok st -> timers_ok (run_requests validId fuel reqs st).2.
Proof.
  revert st. induction reqs as [|[t r] reqs IH]; intros st Hok; simpl; [exact Hok|].
  pose proof (run_until_ok fuel t st Hok) as Hok1.
  destruct (handle validId r (run_until fuel t st)) as [e|[code st2]] eqn:Hh.
  - destruct (run_requests validId fuel reqs (run_until fuel t st)) as [codes st3] eqn:Hr.
    simpl. specialize (IH _ Hok1). rewrite Hr in IH. exact IH.
  - pose proof (handle_ok _ _ _ _ _ Hok1 Hh) as Hok2.
    destruct (run_requests validId fuel reqs st2) as [codes st3] eqn:Hr.
    simpl. specialize (IH _ Hok2). rewrite Hr in IH. exact IH.
Qed.

Lemma at_most_one_debounce st k :
  timers_ok st -> (length (List.filter (has_debounce_key k) (timers st)) <= 1)%nat.
Proof.
  intros (Hi & _ & _ & Hnd & _).
  assert (Hid : forall tm, In tm (timers st) -> has_debounce_key k tm = true ->
                  cacheInvalidationTimers st !! k = Some (tm_id tm)).
  { intros tm Hin Hk. unfold has_debounce_key in Hk.
    destruct (debounce_key tm) as [k'|] eqn:Hdk; [|discriminate].
    apply String.eqb_eq in Hk. subst k'.
    exact (CoordinatorFacts.debounce_key_inv st tm k Hi Hin Hdk). }
  revert Hid Hnd. generalize (timers st) as ts. intros ts.
  induction ts as [|t ts IH]; intros Hid Hnd; simpl; [lia|].
  inversion Hnd as [|? ? Hn Hnd']; subst.
  destruct (has_debounce_key k t) eqn:Ht; simpl.
  - assert (Hnil : List.filter (has_debounce_key k) ts = []).
    { destruct (List.filter (has_debounce_key k) ts) as [|u us] eqn:Hf; [reflexivity|].
      exfalso. assert (Hu : In u (List.filter (has_debounce_key k) ts)) by (rewrite Hf; left; reflexivity).
      apply filter_In in Hu as [Hu Hku].
      pose proof (Hid t (or_introl eq_refl) Ht) as E1.
      pose proof (Hid u (or_intror Hu) Hku) as E2.
      rewrite E1 in E2. injection E2 as E2. apply Hn. rewrite E2.
      apply list_elem_of_In. apply in_map. exact Hu. }
    rewrite Hnil. simpl. lia.
  - apply IH; [|exact Hnd']. intros tm Hin. apply Hid. right. exact Hin.
Qed.

End TimerFacts2.

Module FlushFacts.
Import TTLCache Js Docs Coordinator Aggregator Flush.

Lemma storage_list_elem p s k v :
  (k, v) ∈ storage_list p s <-> s !! k = Some v /\ String.prefix p k = true.
Proof.
  unfold storage_list. rewrite FanoutFacts.sort_by_perm, elem_of_map_to_list, map_lookup_filter_Some.
  reflexivity.
Qed.

Lemma storage_list_nodup p s : NoDup ((storage_list p s).*1).
Proof. unfold storage_list. rewrite FanoutFacts.sort_by_perm. apply NoDup_fst_map_to_list. Qed.

Lemma flush_one_storage validId st kv :
  storage (flush_one validId st kv) =
  match idFromString validId kv.2 with inr _ => delete kv.1 (storage st) | inl _ => storage st end.
Proof. unfold flush_one. destruct (idFromString validId kv.2); reflexivity. Qed.

Lemma fold_flush_storage validId (L : list (string * SVal)) st :
  NoDup L.*1 ->
  (forall k v, (k, v) ∈ L -> storage (fold_left (flush_one validId) L st) !! k =
     match idFromString validId v with inr _ => None | inl _ => storage st !! k end) /\
  (forall k, k ∉ L.*1 -> storage (fold_left (flush_one validId) L st) !! k = storage st !! k).
Proof.
  revert st. induction L as [|[k0 v0] L IH]; intros st Hnd; simpl.
  - split; [intros k v Hin; apply elem_of_nil in Hin; contradiction|reflexivity].
  - apply NoDup_cons in Hnd as [Hk0 Hnd].
    destruct (IH (flush_one validId st (k0, v0)) Hnd) as [IHa IHb].
    split.
    + intros k v Hin. apply elem_of_cons in Hin as [Hin|Hin].
      * injection Hin as -> ->. rewrite IHb by exact Hk0. rewrite flush_one_storage. simpl.
        destruct (idFromString validId v0); [reflexivity|apply lookup_delete_eq].
      * rewrite (IHa k v Hin), flush_one_storage. simpl.
        assert (Hne : k0 <> k).
        { intros ->. apply Hk0. apply list_elem_of_fmap. exists (k, v). split; [reflexivity|exact Hin]. }
        destruct (idFromString validId v) as [e|oid]; [|reflexivity].
        destruct (idFromString validId v0); [reflexivity|]. apply lookup_delete_ne. exact Hne.
    + intros k Hk. rewrite IHb by (intros H; apply Hk; right; exact H).
      rewrite flush_one_storage. simpl.
      destruct (idFromString validId v0); [reflexivity|]. apply lookup_delete_ne.
      intros ->. apply Hk. left.
Qed.

Lemma flush_one_docs validId st kv :
  regDocs (flush_one validId st kv) =
  match idFromString validId kv.2 with inr oid => delete oid (regDocs st) | inl _ => regDocs st end.
Proof.
  unfold flush_one. destruct (idFromString validId kv.2) as [|oid]; [reflexivity|].
  simpl. destruct (regDocs st !! oid); reflexivity.
Qed.

Lemma fold_flush_docs_none validId (L : list (string * SVal)) st o :
  regDocs st !! o = None -> regDocs (fold_left (flush_one validId) L st) !! o = None.
Proof.
  revert st. induction L as [|kv L IH]; intros st H; simpl; [exact H|].
  apply IH. rewrite flush_one_docs. destruct (idFromString validId kv.2) as [|oid]; [exact H|].
  rewrite lookup_delete_None. right. exact H.
Qed.

Lemma fold_flush_docs validId (L : list (string * SVal)) st :
  (forall k o, (k, SStr o) ∈ L -> validId o = true ->
     regDocs (fold_left (flush_one validId) L st) !! o = None) /\
  (forall o d, regDocs (fold_left (flush_one validId) L st) !! o = Some d -> regDocs st !! o = Some d).
Proof.
  revert st. induction L as [|[k0 v0] L IH]; intros st; simpl.
  - split; [intros k o Hin; apply elem_of_nil in Hin; contradiction|tauto].
  - destruct (IH (flush_one validId st (k0, v0))) as [IHa IHb]. split.
    + intros k o Hin Hv. apply elem_of_cons in Hin as [Hin|Hin]; [|exact (IHa k o Hin Hv)].
      injection Hin as _ <-. apply fold_flush_docs_none.
      rewrite flush_one_docs. simpl. rewrite Hv. apply lookup_delete_eq.
    + intros o d Hd. apply IHb in Hd. rewrite flush_one_docs in Hd. simpl in Hd.
      destruct (idFromString validId v0) as [|oid]; [exact Hd|].
      apply lookup_delete_Some in Hd as [_ Hd]. exact Hd.
Qed.

Lemma fold_clear_storage (L : list (string * SVal)) st k :
  storage (fold_left clear_trail_list L st) !! k =
  if bool_decide (k ∈ L.*1) then Some (SIds []) else storage st !! k.
Proof.
  revert st. induction L as [|[k0 v0] L IH]; intros st; simpl.
  - reflexivity.
  - rewrite IH. unfold clear_trail_list. simpl.
    destruct (bool_decide_reflect (k ∈ L.*1)) as [H|H].
    + rewrite bool_decide_true; [reflexivity|right; exact H].
    + destruct (String.eqb_spec k k0) as [->|E].
      * rewrite lookup_insert_eq, bool_decide_true; [reflexivity|left].
      * rewrite lookup_insert_ne by (intros E'; apply E; symmetry; exact E').
        rewrite bool_decide_false; [reflexivity|].
        intros Hin. apply elem_of_cons in Hin as [Hin|Hin]; [exact (E Hin)|exact (H Hin)].
Qed.

Lemma fold_clear_docs (L : list (string * SVal)) st :
  regDocs (fold_left clear_trail_list L st) = regDocs st.
Proof. revert st. induction L as [|kv L IH]; intros st; simpl; [reflexivity|]. rewrite IH. reflexivity. Qed.

Lemma registration_not_trail_list k :
  String.prefix "registration:" k = true -> String.prefix "trail_registrations:" k = false.
Proof.
  intros H. destruct k as [|c k]; [discriminate|].
  destruct c as [[] [] [] [] [] [] [] []]; simpl in H |- *; try discriminate; reflexivity.
Qed.

Lemma elem_fst_iff (L : list (string * SVal)) k :
  k ∈ L.*1 <-> exists v, (k, v) ∈ L.
Proof.
  rewrite list_elem_of_fmap. split.
  - intros ([k' v] & -> & Hin). exists v. exact Hin.
  - intros [v Hin]. exists (k, v). split; [reflexivity|exact Hin].
Qed.

End FlushFacts.

Module GroupFacts.
Import Js Analytics.














End GroupFacts.

Module GroupFacts2.
Import Js Analytics GroupFacts.














End GroupFacts2.

Module GroupFacts3.
Import Js Analytics GroupFacts GroupFacts2.


End GroupFacts3.

Module PageFacts.
Import Pagination.

Lemma page_data (limit0 : Num) (l : list RegistrationTableItem) x p :
  clampLimit limit0 = Some x -> 1 <= p ->
  data (registrationResponse (Some p) limit0 l) =
  take (Z.to_nat x)
    (drop (Z.to_nat ((p - 1) * x))
       (Js.sort_by (fun a b => Js.localeCompare (ti_timestamp b) (ti_timestamp a)) l)).
Proof.
  intros Hx Hp.
  destruct (PaginationFacts.clampLimit_cases limit0) as [E|(x' & E & Hx')]; rewrite E in Hx;
    [discriminate|injection Hx as <-].
  unfold registrationResponse, clampPage, num_lt. rewrite E.
  destruct (Z.ltb_spec p 1); [lia|]. simpl.
  set (sl := Js.sort_by _ l). unfold js_slice.
  set (n := Z.of_nat (length sl)).
  destruct (Z.ltb_spec ((p + -1) * x') 0); [nia|].
  destruct (Z.ltb_spec (Z.min ((p + -1) * x' + x') n) 0); [lia|].
  replace (p - 1) with (p + -1) by lia.
  destruct (Z.le_gt_cases n ((p + -1) * x')) as [Hge|Hlt].
  - rewrite (drop_ge sl (Z.to_nat (Z.min ((p + -1) * x') n))) by (unfold n in *; lia).
    rewrite (drop_ge sl (Z.to_nat ((p + -1) * x'))) by (unfold n in *; lia).
    rewrite !take_nil. reflexivity.
  - rewrite Z.min_l by lia.
    destruct (Z.le_gt_cases ((p + -1) * x' + x') n).
    + rewrite !Z.min_l by lia. replace ((p + -1) * x' + x' - (p + -1) * x') with x' by ring. reflexivity.
    + rewrite (Z.min_r ((p + -1) * x' + x') n) by lia. rewrite (Z.min_l ((p + -1) * x') n) by lia.
      rewrite !take_ge; [reflexivity| |]; rewrite length_drop; unfold n in *; lia.
Qed.

Lemma concat_pages {A} (L : list A) (X : nat) m k :
  concat (map (fun i => take X (drop ((i - 1) * X) L)) (seq (S k) m)) = take (m * X) (drop (k * X) L).
Proof.
  revert k. induction m as [|m IH]; intros k; cbn [seq map concat]; [reflexivity|].
  rewrite IH. replace (S k - 1)%nat with k by lia.
  replace (S k * X)%nat with (k * X + X)%nat by lia.
  rewrite <- drop_drop, take_take_drop. reflexivity.
Qed.

End PageFacts.

Module ShapeFacts.
Import Js Analytics Aggregator.

Lemma fold_batch_shape {A} (n : nat) (l : list A) bs cur :
  (1 <= n)%nat -> Forall (fun b => length b = n) bs -> (length cur < n)%nat ->
  Forall (fun b => length b = n) (fold_left (batch_step n) l (bs, cur)).1 /\
  (length (fold_left (batch_step n) l (bs, cur)).2 < n)%nat.
Proof.
  intros Hn. revert bs cur. induction l as [|e l IH]; intros bs cur Hbs Hcur; simpl; [tauto|].
  destruct (batch_step n (bs, cur) e) as [bs' cur'] eqn:Hp.
  unfold batch_step in Hp. simpl in Hp.
  destruct (Nat.leb_spec n (length (cur ++ [e]))) as [Hle|Hlt]; inversion Hp; subst.
  - apply IH; [|simpl; lia]. apply Forall_app. split; [exact Hbs|].
    constructor; [|constructor]. rewrite length_app in *. simpl in *. lia.
  - apply IH; assumption.
Qed.

Lemma div_bounds a b : 0 < b -> b * (a / b) <= a < b * (a / b) + b.
Proof. intros Hb. pose proof (Z.div_mod a b) as H1. pose proof (Z.mod_pos_bound a b Hb). lia. Qed.

Lemma compare_app_same p a b : String.compare (p ++ a) (p ++ b) = String.compare a b.
Proof.
  induction p as [|c p IH]; [reflexivity|]. simpl.
  unfold Ascii.compare. rewrite N.compare_refl. exact IH.
Qed.

End ShapeFacts.

Section CacheReads.
Import TTLCache Coordinator.

(** X2: The periodic sweep of setupCacheCleanup is unobservable to reads:
    after a sweep at time t0, a getFromCache at any later time t >= t0
    returns the same value (or absence) as on the unswept table. *)
Theorem cleanup_read_unobservable {A} (t0 t : Z) (k : string) (c : Cache A) :
  t0 <= t -> (getFromCache t k (cleanup t0 c)).1 = (getFromCache t k c).1.
Proof.
  intros Ht. unfold getFromCache. rewrite ExtraFacts.cleanup_lookup.
  destruct (c !! k) as [e|]; [|reflexivity].
  destruct (Z.ltb_spec (expires e) t0); simpl.
  - destruct (Z.ltb_spec (expires e) t); [reflexivity|lia].
  - destruct (Z.ltb (expires e) t); reflexivity.
Qed.

Lemma cleanup_read_unobservable_witness :
  (getFromCache 60 "k" (cleanup 50 (setInCache 0 "k" 7 100 (∅ : Cache Z)))).1 =
  (getFromCache 60 "k" (setInCache 0 "k" 7 100 (∅ : Cache Z))).1.
Proof. apply (cleanup_read_unobservable 50 60 "k" (setInCache 0 "k" 7 100 ∅)). lia. Defined.


End CacheReads.

Section RegistrationRequests.
Import TTLCache Js Docs Coordinator.

(** X3: updateRegistration and deleteRegistration never evict a cached
    'registration:<id>' entry: invalidateAllCaches removes only the
    all-registrations, statistics, trail and analytics prefixes, so after an
    update or delete the registration cache (read first by getRegistration)
    is exactly as before, for every registration id. *)
Theorem update_delete_keep_cached_registration validId rid rid' nowIso d st code st' :
  (updateRegistration validId rid nowIso d st = inr (code, st') \/
   deleteRegistration validId rid st = inr (code, st')) ->
  cache st' !! ("registration:" ++ rid')%string = cache st !! ("registration:" ++ rid')%string.
Proof.
  intros [H|H].
  - unfold updateRegistration in H.
    destruct (truthy_sval _); simpl in H; [|injection H as _ <-; reflexivity].
    destruct (idFromString _ _) as [e|oid]; simpl in H; [discriminate|].
    destruct (regdo_put _ _ _) as [resp doc]. simpl in H.
    destruct (Z.eqb (status resp) 200); simpl in H; [|injection H as _ <-; reflexivity].
    injection H as _ <-.
    repeat match goal with
    | |- context [match ?x with _ => _ end] => destruct x
    | |- context [if ?b then _ else _] => destruct b
    end; rewrite ?ExtraFacts.invalidate_keeps_registration_key; reflexivity.
  - unfold deleteRegistration in H.
    destruct (truthy_sval _); simpl in H; [|injection H as _ <-; reflexivity].
    destruct (idFromString _ _) as [e|oid]; simpl in H; [discriminate|].
    destruct (if Z.eqb _ 200 then _ else _) as [e|[tid s]]; simpl in H; [discriminate|].
    destruct (regdo_delete _) as [resp doc]. simpl in H.
    destruct (_ && _); simpl in H; injection H as _ <-;
      rewrite ?ExtraFacts.invalidate_keeps_registration_key; reflexivity.
Qed.

Lemma update_delete_keep_cached_registration_witness :
  exists code st',
    updateRegistration all_ids_valid "r1" "2024-03-02T00:00:00.000Z" horse_update sample_state
      = inr (code, st') /\
    cache st' !! ("registration:" ++ "r1")%string = cache sample_state !! ("registration:" ++ "r1")%string.
Proof.
  destruct (updateRegistration all_ids_valid "r1" "2024-03-02T00:00:00.000Z" horse_update sample_state)
    as [e|[code st']] eqn:E; [vm_compute in E; discriminate E|].
  exists code, st'. split; [reflexivity|].
  apply (update_delete_keep_cached_registration all_ids_valid "r1" "r1"
           "2024-03-02T00:00:00.000Z" horse_update sample_state code st').
  left. exact E.
Defined.

(** X4: updateRegistration never changes the manager's storage: whatever
    it answers (404 for an unknown id, the actor's error, or 200), the
    index mappings and trail registration lists are unchanged. *)
Theorem updateRegistration_keeps_storage validId rid nowIso d st code st' :
  updateRegistration validId rid nowIso d st = inr (code, st') -> storage st' = storage st.
Proof.
  intros H. unfold updateRegistration in H.
  destruct (truthy_sval _); simpl in H; [|injection H as _ <-; reflexivity].
  destruct (idFromString _ _) as [e|oid]; simpl in H; [discriminate|].
  destruct (regdo_put _ _ _) as [resp doc]. simpl in H.
  destruct (Z.eqb (status resp) 200); simpl in H; [|injection H as _ <-; reflexivity].
  injection H as _ <-.
  repeat match goal with
  | |- context [match ?x with _ => _ end] => destruct x
  | |- context [if ?b then _ else _] => destruct b
  end; reflexivity.
Qed.

Lemma updateRegistration_keeps_storage_witness :
  exists code st',
    updateRegistration all_ids_valid "r1" "2024-03-02T00:00:00.000Z" horse_update sample_state
      = inr (code, st') /\ storage st' = storage sample_state.
Proof.
  destruct (updateRegistration all_ids_valid "r1" "2024-03-02T00:00:00.000Z" horse_update sample_state)
    as [e|[code st']] eqn:E; [vm_compute in E; discriminate E|].
  exists code, st'. split; [reflexivity|].
  apply (updateRegistration_keeps_storage all_ids_valid "r1" "2024-03-02T00:00:00.000Z"
           horse_update sample_state code st').
  exact E.
Defined.

(** X6: createRegistration rejects without any effect: 400 when trailId is
    missing or empty, 404 when 'trail:<trailId>' is not in storage, and 400
    when the registration actor holds no document and riderName or
    horseCount is missing; in each case the state is unchanged. *)
Theorem createRegistration_rejects rid oid nowIso d st :
  (truthy_str (p_trailId d) = false -> createRegistration rid oid nowIso d st = (400, st)) /\
  (truthy_str (p_trailId d) = true ->
   truthy_sval (storage st !! ("trail:" ++ default "" (p_trailId d))%string) = false ->
   createRegistration rid oid nowIso d st = (404, st)) /\
  (truthy_str (p_trailId d) = true ->
   truthy_sval (storage st !! ("trail:" ++ default "" (p_trailId d))%string) = true ->
   regDocs st !! oid = None ->
   truthy_str (p_riderName d) && truthy_num (p_horseCount d) = false ->
   createRegistration rid oid nowIso d st = (400, st)).
Proof.
  unfold createRegistration. split; [|split].
  - intros H. rewrite H. reflexivity.
  - intros H1 H2. rewrite H1, H2. reflexivity.
  - intros H1 H2 Hd H3. rewrite H1, H2, Hd. simpl.
    destruct d as [pi pt pr pts ph]; simpl in *. rewrite H1. simpl.
    destruct (truthy_str pr && truthy_num ph) eqn:E; [discriminate|]. simpl.
    rewrite ExtraFacts.set_doc_none_absent by exact Hd. reflexivity.
Qed.

(** X7: A successful createRegistration (valid trail, rider name and horse
    count, fresh actor) answers 200, maps 'registration:<id>' to the actor
    id, appends the id to the trail's registration list (an absent list
    counts as empty), stores a document with that id and trail, and arms
    the trail's 2-second debounce timer with the next timer id. *)
Theorem createRegistration_success rid oid nowIso d st t ids :
  p_trailId d = Some t -> t <> ""%string ->
  truthy_sval (storage st !! ("trail:" ++ t)%string) = true ->
  regDocs st !! oid = None ->
  truthy_str (p_riderName d) = true -> truthy_num (p_horseCount d) = true ->
  (storage st !! ("trail_registrations:" ++ t)%string = Some (Aggregator.SIds ids) \/
   storage st !! ("trail_registrations:" ++ t)%string = None /\ ids = []) ->
  exists st', createRegistration rid oid nowIso d st = (200, st') /\
    storage st' = <[("trail_registrations:" ++ t)%string := Aggregator.SIds (ids ++ [rid])]>
                    (<[("registration:" ++ rid)%string := Aggregator.SStr oid]> (storage st)) /\
    (exists r, regDocs st' = <[oid := r]> (regDocs st) /\ id r = rid /\ trailId r = t) /\
    cacheInvalidationTimers st' !! timer_key t = Some (nextTimerId st) /\
    In {| tm_id := nextTimerId st; tm_due := clock st + 2000; tm_action := DebouncedInvalidate t |}
       (timers st').
Proof.
  intros Hp Hne Htr Hd Hr Hh Hl.
  destruct (CreateFacts.create_success_core rid oid nowIso d st t ids Hp Hne Htr Hd Hr Hh Hl)
    as (r & Hid & Ht & ->).
  destruct (CreateFacts.debounce_fields
              (set_storage (set_doc st oid (Some r))
                 (<[("trail_registrations:" ++ t)%string := Aggregator.SIds (ids ++ [rid])]>
                   (<[("registration:" ++ rid)%string := Aggregator.SStr oid]> (storage st)))) t)
    as (Hs & Hdocs & Hk & Hin).
  eexists. split; [reflexivity|]. rewrite Hs, Hdocs. split; [reflexivity|].
  split; [exists r; split; [reflexivity|split; assumption]|].
  split; assumption.
Qed.

Lemma createRegistration_success_witness :
  exists st', createRegistration "r2" "o2" "2024-03-02T00:00:00.000Z" new_registration sample_state
                = (200, st') /\
    storage st' = <[("trail_registrations:" ++ "T1")%string := Aggregator.SIds (["r1"] ++ ["r2"])]>
                    (<[("registration:" ++ "r2")%string := Aggregator.SStr "o2"]> (storage sample_state)) /\
    (exists r, regDocs st' = <["o2" := r]> (regDocs sample_state) /\ id r = "r2" /\ trailId r = "T1") /\
    cacheInvalidationTimers st' !! timer_key "T1" = Some (nextTimerId sample_state) /\
    In {| tm_id := nextTimerId sample_state; tm_due := clock sample_state + 2000;
          tm_action := DebouncedInvalidate "T1" |} (timers st').
Proof.
  apply (createRegistration_success "r2" "o2" "2024-03-02T00:00:00.000Z" new_registration
           sample_state "T1" ["r1"]);
    [reflexivity|discriminate|vm_compute; reflexivity|vm_compute; reflexivity
    |reflexivity|reflexivity|left; vm_compute; reflexivity].
Defined.

(** X8: Creating a new registration and then deleting it (with a valid
    actor id) answers 200 twice and restores the documents and every
    storage entry, except that the trail's registration list, if it was
    absent before, is now present and equal to the old (empty) list. *)
Theorem create_then_delete_roundtrip validId rid oid nowIso d st t ids :
  p_trailId d = Some t -> t <> ""%string ->
  truthy_sval (storage st !! ("trail:" ++ t)%string) = true ->
  regDocs st !! oid = None ->
  truthy_str (p_riderName d) = true -> truthy_num (p_horseCount d) = true ->
  (storage st !! ("trail_registrations:" ++ t)%string = Some (Aggregator.SIds ids) \/
   storage st !! ("trail_registrations:" ++ t)%string = None /\ ids = []) ->
  storage st !! ("registration:" ++ rid)%string = None -> ~ In rid ids ->
  validId oid = true -> oid <> ""%string ->
  exists st' st'',
    createRegistration rid oid nowIso d st = (200, st') /\
    deleteRegistration validId rid st' = inr (200, st'') /\
    storage st'' = <[("trail_registrations:" ++ t)%string := Aggregator.SIds ids]> (storage st) /\
    regDocs st'' = regDocs st.
Proof.
  intros Hp Hne Htr Hd Hr Hh Hl Hreg Hnin Hv Hoid.
  destruct (CreateFacts.create_success_core rid oid nowIso d st t ids Hp Hne Htr Hd Hr Hh Hl)
    as (r & Hid & Ht & ->).
  set (s2 := <[("trail_registrations:" ++ t)%string := Aggregator.SIds (ids ++ [rid])]>
               (<[("registration:" ++ rid)%string := Aggregator.SStr oid]> (storage st))).
  destruct (CreateFacts.debounce_fields (set_storage (set_doc st oid (Some r)) s2) t)
    as (Hs & Hdocs & _ & _).
  cbn [storage regDocs set_storage set_doc] in Hs, Hdocs.
  remember (debounceInvalidateCache (set_storage (set_doc st oid (Some r)) s2) t) as st1 eqn:Est.
  clear Est.
  exists st1. eexists. split; [reflexivity|].
  unfold deleteRegistration.
  assert (Hk : storage st1 !! ("registration:" ++ rid)%string = Some (Aggregator.SStr oid)).
  { rewrite Hs. unfold s2. rewrite lookup_insert_ne by (intros E; discriminate E).
    apply lookup_insert_eq. }
  rewrite Hk. simpl.
  assert (Hoid' : negb (String.eqb oid "") = true)
    by (destruct (String.eqb_spec oid ""); [contradiction|reflexivity]).
  rewrite Hoid'. simpl. rewrite Hv. simpl.
  rewrite Hdocs, lookup_insert_eq. simpl. rewrite Ht.
  assert (Ht' : String.eqb t "" = false) by (apply String.eqb_neq; exact Hne).
  rewrite Ht'. simpl.
  rewrite Hs. unfold s2 at 1. rewrite lookup_insert_eq. simpl.
  assert (Hf : List.filter (fun i => negb (String.eqb i rid)) (ids ++ [rid]) = ids).
  { clear -Hnin. induction ids as [|i ids IH]; simpl.
    - rewrite String.eqb_refl. reflexivity.
    - destruct (String.eqb_spec i rid) as [->|E]; [exfalso; apply Hnin; left; reflexivity|].
      simpl. f_equal. apply IH. intros H. apply Hnin. right. exact H. }
  rewrite Hf, Ht'. simpl.
  split; [reflexivity|].
  simpl. split.
  - unfold s2. rewrite insert_insert_eq.
    rewrite delete_insert_ne by (intros E; discriminate E).
    rewrite delete_insert_eq. rewrite delete_id by exact Hreg. reflexivity.
  - rewrite Hdocs, delete_insert_eq. apply delete_id. exact Hd.
Qed.

Lemma create_then_delete_roundtrip_witness :
  exists st' st'',
    createRegistration "r2" "o2" "2024-03-02T00:00:00.000Z" new_registration sample_state = (200, st') /\
    deleteRegistration all_ids_valid "r2" st' = inr (200, st'') /\
    storage st'' = <[("trail_registrations:" ++ "T1")%string := Aggregator.SIds ["r1"]]> (storage sample_state) /\
    regDocs st'' = regDocs sample_state.
Proof.
  apply (create_then_delete_roundtrip all_ids_valid "r2" "o2" "2024-03-02T00:00:00.000Z"
           new_registration sample_state "T1" ["r1"]);
    [reflexivity|discriminate|vm_compute; reflexivity|vm_compute; reflexivity
    |reflexivity|reflexivity|left; vm_compute; reflexivity|vm_compute; reflexivity
    |simpl; intros [H|[]]; discriminate H|reflexivity|discriminate].
Defined.

End RegistrationRequests.

Section TimerBookkeeping.
Import TTLCache Js Docs Coordinator CoordinatorInvariants.

(** X9: After any sequence of create, update and delete requests (with the
    timers firing in between), started from consistent timer bookkeeping,
    the bookkeeping is still consistent (debounce map pointing at pending
    timers, distinct positive ids below the next id), and at most one
    debounced invalidation timer is pending per trail key. *)
Theorem run_requests_single_debounce_timer validId fuel reqs st :
  timers_ok st ->
  timers_ok (run_requests validId fuel reqs st).2 /\
  forall k, (length (List.filter (has_debounce_key k) (timers (run_requests validId fuel reqs st).2)) <= 1)%nat.
Proof.
  intros Hok. pose proof (TimerFacts2.run_requests_ok validId fuel reqs st Hok) as H.
  split; [exact H|]. intros k. apply TimerFacts2.at_most_one_debounce. exact H.
Qed.

Lemma run_requests_single_debounce_timer_witness :
  let reqs := [(0, Create "r2" "o2" "2024-03-01T10:00:00.000Z" new_registration);
               (1000, Create "r3" "o3" "2024-03-01T10:00:01.000Z" new_registration);
               (1500, Update "r1" "2024-03-01T10:00:01.500Z" horse_update);
               (5000, Delete "r2")] in
  timers_ok (run_requests all_ids_valid 10 reqs sample_state).2 /\
  forall k, (length (List.filter (has_debounce_key k)
                       (timers (run_requests all_ids_valid 10 reqs sample_state).2)) <= 1)%nat.
Proof.
  intros reqs. apply (run_requests_single_debounce_timer all_ids_valid 10 reqs sample_state).
  split; [intros tm Hin; destruct Hin|].
  split; [apply map_Forall_empty|].
  split; [discriminate|].
  split; constructor.
Defined.

End TimerBookkeeping.

Section Flushing.
Import TTLCache Js Docs Coordinator Flush.

(** X10: flushAllRegistrations answers 200; afterwards every
    'registration:' entry whose actor id is valid is deleted (an invalid
    one is skipped and kept), every 'trail_registrations:' list is reset to
    empty, every other storage entry is unchanged, the documents of the
    deleted registrations are gone, and no document is created or
    changed. *)
Theorem flushAllRegistrations_effect validId st :
  let '(code, st') := flushAllRegistrations validId st in
  code = 200 /\
  (forall k, storage st' !! k =
     match storage st !! k with
     | None => None
     | Some v =>
         if String.prefix "registration:" k then
           match idFromString validId v with inr _ => None | inl _ => Some v end
         else if String.prefix "trail_registrations:" k then Some (Aggregator.SIds [])
         else Some v
     end) /\
  (forall k o, storage st !! k = Some (Aggregator.SStr o) ->
     String.prefix "registration:" k = true -> validId o = true -> regDocs st' !! o = None) /\
  (forall o d, regDocs st' !! o = Some d -> regDocs st !! o = Some d).
Proof.
  unfold flushAllRegistrations. split; [reflexivity|].
  set (L1 := Aggregator.storage_list "registration:" (storage st)).
  set (L2 := Aggregator.storage_list "trail_registrations:" (storage st)).
  destruct (FlushFacts.fold_flush_storage validId L1 st (FlushFacts.storage_list_nodup _ _))
    as [Ha Hb].
  destruct (FlushFacts.fold_flush_docs validId L1 st) as [Hc Hd].
  split; [|split].
  - intros k. rewrite CoordinatorFacts.storage_invalidateAllCaches, FlushFacts.fold_clear_storage.
    destruct (storage st !! k) as [v|] eqn:Hk.
    + destruct (String.prefix "registration:" k) eqn:Hp.
      * rewrite bool_decide_false.
        2:{ intros Hin. apply FlushFacts.elem_fst_iff in Hin as [w Hin].
            apply FlushFacts.storage_list_elem in Hin as [_ Hq].
            rewrite FlushFacts.registration_not_trail_list in Hq by exact Hp. discriminate. }
        rewrite (Ha k v); [rewrite Hk; reflexivity|].
        apply FlushFacts.storage_list_elem. split; assumption.
      * destruct (String.prefix "trail_registrations:" k) eqn:Hq.
        -- rewrite bool_decide_true; [reflexivity|].
           apply FlushFacts.elem_fst_iff. exists v. apply FlushFacts.storage_list_elem.
           split; assumption.
        -- rewrite bool_decide_false.
           2:{ intros Hin. apply FlushFacts.elem_fst_iff in Hin as [w Hin].
               apply FlushFacts.storage_list_elem in Hin as [_ Hq']. congruence. }
           rewrite Hb; [exact Hk|].
           intros Hin. apply FlushFacts.elem_fst_iff in Hin as [w Hin].
           apply FlushFacts.storage_list_elem in Hin as [_ Hp']. congruence.
    + rewrite bool_decide_false.
      2:{ intros Hin. apply FlushFacts.elem_fst_iff in Hin as [w Hin].
          apply FlushFacts.storage_list_elem in Hin as [Hw _]. congruence. }
      rewrite Hb; [exact Hk|].
      intros Hin. apply FlushFacts.elem_fst_iff in Hin as [w Hin].
      apply FlushFacts.storage_list_elem in Hin as [Hw _]. congruence.
  - intros k o Hk Hp Hv. simpl. rewrite FlushFacts.fold_clear_docs.
    apply (Hc k o); [|exact Hv]. apply FlushFacts.storage_list_elem. split; assumption.
  - intros o d H. simpl in H. rewrite FlushFacts.fold_clear_docs in H. exact (Hd o d H).
Qed.

End Flushing.

Section Grouping.
Import Js Analytics.



End Grouping.

Section Pages.
Import Pagination.

(** X13: For any page size x the limit clamps to, getRegistrationData
    splits the rows into totalPages pages that together hold every row
    exactly once: pages 1..totalPages concatenate to a reordering of the
    rows, every page before the last holds exactly x rows, the last page
    holds between 1 and x rows, and every page past totalPages is empty and
    has no next page.  (This holds whatever order the sort puts the rows in.) *)
Theorem pages_partition_rows (limit0 : Num) (l : list RegistrationTableItem) x :
  clampLimit limit0 = Some x ->
  exists t, totalPages (registrationResponse (Some 1) limit0 l) = Some t /\
    concat (map (fun i => data (registrationResponse (Some (Z.of_nat i)) limit0 l))
                (seq 1 (Z.to_nat t))) ≡ₚ l /\
    (forall p, 1 <= p < t -> Z.of_nat (length (data (registrationResponse (Some p) limit0 l))) = x) /\
    (0 < t -> 1 <= Z.of_nat (length (data (registrationResponse (Some t) limit0 l))) <= x) /\
    (forall p, t < p -> data (registrationResponse (Some p) limit0 l) = [] /\
                        hasNextPage (registrationResponse (Some p) limit0 l) = false).
Proof.
  intros Hx.
  destruct (PaginationFacts.clampLimit_cases limit0) as [E|(x' & E & Hx')]; rewrite E in Hx;
    [discriminate|injection Hx as <-].
  set (sl := Js.sort_by (fun a b => Js.localeCompare (ti_timestamp b) (ti_timestamp a)) l).
  set (n := Z.of_nat (length sl)).
  set (t := - ((- n) / x')).
  pose proof (ShapeFacts.div_bounds (- n) x' ltac:(lia)) as Hb. fold t in Hb.
  assert (Ht : n <= t * x') by (unfold t in *; lia).
  assert (Ht1 : (t - 1) * x' < n) by (unfold t in *; lia).
  assert (Ht0 : 0 <= t) by (unfold n in *; nia).
  assert (Hlen : forall p, 1 <= p ->
            Z.of_nat (length (data (registrationResponse (Some p) limit0 l))) =
            Z.max 0 (Z.min x' (n - (p - 1) * x'))).
  { intros p Hp. rewrite (PageFacts.page_data limit0 l x' p E) by lia. fold sl.
    rewrite length_take, length_drop. unfold n. 
    assert (0 <= (p - 1) * x') by nia. lia. }
  exists t. split; [|split; [|split; [|split]]].
  - unfold registrationResponse. rewrite E. simpl. destruct (Z.ltb_spec 0 x'); [|lia].
    reflexivity.
  - transitivity sl; [|apply FanoutFacts.sort_by_perm].
    transitivity (concat (map (fun i => take (Z.to_nat x') (drop ((i - 1) * Z.to_nat x') sl))
                           (seq 1 (Z.to_nat t)))).
    + match goal with |- ?a ≡ₚ ?b => assert (a = b) as ->; [|reflexivity] end.
      f_equal. apply map_ext_in. intros i Hi. apply in_seq in Hi.
      rewrite (PageFacts.page_data limit0 l x' (Z.of_nat i) E) by lia.
      f_equal. f_equal. rewrite Z2Nat.inj_mul by lia. f_equal. lia.
    + rewrite (PageFacts.concat_pages sl (Z.to_nat x') (Z.to_nat t) 0). simpl.
      rewrite take_ge; [reflexivity|]. rewrite drop_0. clear -Ht Ht0 Hx'. unfold n in Ht. nia.
  - intros p Hp. rewrite Hlen by lia. nia.
  - intros Hpos. rewrite Hlen by lia. nia.
  - intros p Hp. split.
    + rewrite (PageFacts.page_data limit0 l x' p E) by lia. fold sl.
      rewrite drop_ge; [apply take_nil|]. unfold n in Ht. nia.
    + unfold registrationResponse, clampPage, num_lt. rewrite E.
      destruct (Z.ltb_spec p 1); [lia|]. simpl. destruct (Z.ltb_spec 0 x'); [|lia]. simpl.
      fold sl. fold n. fold t. destruct (Z.ltb_spec p t); [lia|reflexivity].
Qed.

Lemma pages_partition_rows_witness :
  let row := fun i ts => {| ti_id := i; ti_date := "2024-03-01"; ti_trail := "Ridge";
                            ti_trailId := "T1"; ti_riderName := "A"; ti_horseCount := 2;
                            ti_timestamp := ts |} in
  let l := [row "a" "2024-03-01T10:00:00.000Z"; row "b" "2024-03-01T10:00:00.000Z";
            row "c" "2024-03-01t09:00:00.000z"] in
  exists t, totalPages (registrationResponse (Some 1) (Some 2) l) = Some t /\
    concat (map (fun i => data (registrationResponse (Some (Z.of_nat i)) (Some 2) l))
                (seq 1 (Z.to_nat t))) ≡ₚ l /\
    (forall p, 1 <= p < t -> Z.of_nat (length (data (registrationResponse (Some p) (Some 2) l))) = 2) /\
    (0 < t -> 1 <= Z.of_nat (length (data (registrationResponse (Some t) (Some 2) l))) <= 2) /\
    (forall p, t < p -> data (registrationResponse (Some p) (Some 2) l) = [] /\
                        hasNextPage (registrationResponse (Some p) (Some 2) l) = false).
Proof.
  intros row l. apply (pages_partition_rows (Some 2) l 2). reflexivity.
Defined.

End Pages.

Section Batching.
Import Js Analytics Aggregator.

(** X14: The batching loop of aggregateAnalytics, for a batch size n >= 1:
    every batch but the last has exactly n entries, and the last has
    between 1 and n entries (no empty batch is produced). *)
Theorem make_batches_shape {A} (n : nat) (l : list A) :
  (1 <= n)%nat ->
  Forall (fun b => length b = n) (removelast (make_batches n l)) /\
  (forall b, last (make_batches n l) = Some b -> (1 <= length b <= n)%nat).
Proof.
  intros Hn. unfold make_batches.
  destruct (ShapeFacts.fold_batch_shape n l [] [] Hn (List.Forall_nil _) ltac:(simpl; lia)) as [Hbs Hcur].
  destruct (fold_left (batch_step n) l ([], [])) as [bs cur]. simpl in *.
  destruct cur as [|c cur'].
  - split.
    + destruct bs as [|b0 bs0]; [constructor|].
      destruct (exists_last (l:=b0 :: bs0) ltac:(discriminate)) as [bs1 [x Ex]].
      rewrite Ex in Hbs |- *. rewrite removelast_last.
      apply Forall_app in Hbs. tauto.
    + intros b Hb. apply last_Some_elem_of in Hb. apply list_elem_of_In in Hb.
      rewrite List.Forall_forall in Hbs. rewrite (Hbs b Hb). lia.
  - split.
    + rewrite removelast_last. exact Hbs.
    + intros b Hb. rewrite last_app in Hb. simpl in Hb. injection Hb as <-. simpl in *. lia.
Qed.

Lemma make_batches_shape_witness :
  Forall (fun b => length b = 2%nat) (removelast (make_batches 2 [1; 2; 3])) /\
  (forall b, last (make_batches 2 [1; 2; 3]) = Some b -> (1 <= length b <= 2)%nat).
Proof. apply (make_batches_shape 2 [1; 2; 3]). lia. Defined.

(** X15: getWeekNumber, on a date d whole days (and a part of a day)
    after January 1: at exactly midnight it is ceil((d + jan1Day + 1) / 7);
    at any other time it is floor((d + jan1Day + 1) / 7) + 1, so weeks turn
    over on Saturdays just after midnight.  Within a year (d < 366) the
    week number lies between 1 and 54. *)
Theorem getWeekNumber_days (dt : JSDate) :
  0 <= msSinceJan1 dt ->
  getWeekNumber dt =
    (if msSinceJan1 dt mod 86400000 =? 0
     then (msSinceJan1 dt / 86400000 + jan1Day dt + 7) / 7
     else (msSinceJan1 dt / 86400000 + jan1Day dt + 1) / 7 + 1) /\
  (msSinceJan1 dt < 366 * 86400000 -> 0 <= jan1Day dt <= 6 -> 1 <= getWeekNumber dt <= 54).
Proof.
  intros Hms. unfold getWeekNumber.
  set (m := msSinceJan1 dt). set (j := jan1Day dt).
  pose proof (ShapeFacts.div_bounds m 86400000 ltac:(lia)) as Hd.
  pose proof (ShapeFacts.div_bounds (- (m + (j + 1) * 86400000)) 604800000 ltac:(lia)) as Hw.
  set (d := m / 86400000) in *.
  set (q := (- (m + (j + 1) * 86400000)) / 604800000) in *.
  assert (Hq : m mod 86400000 = m - 86400000 * d) by (rewrite Z.mod_eq by lia; unfold d; lia).
  split.
  - rewrite Hq. destruct (Z.eqb_spec (m - 86400000 * d) 0) as [E|E].
    + pose proof (ShapeFacts.div_bounds (d + j + 7) 7 ltac:(lia)) as H7. lia.
    + pose proof (ShapeFacts.div_bounds (d + j + 1) 7 ltac:(lia)) as H7. lia.
  - intros Hm Hj. lia.
Qed.

Lemma getWeekNumber_days_witness :
  let dt := {| isoDate := "2024-03-01"; fullYear := 2024; month0 := 2;
               msSinceJan1 := 60 * 86400000 + 36000000; jan1Day := 1 |} in
  getWeekNumber dt =
    (if msSinceJan1 dt mod 86400000 =? 0
     then (msSinceJan1 dt / 86400000 + jan1Day dt + 7) / 7
     else (msSinceJan1 dt / 86400000 + jan1Day dt + 1) / 7 + 1) /\
  (msSinceJan1 dt < 366 * 86400000 -> 0 <= jan1Day dt <= 6 -> 1 <= getWeekNumber dt <= 54).
Proof. intros dt. apply (getWeekNumber_days dt). simpl. lia. Defined.

(** X16: Month keys of one year compare (with localeCompare) in calendar
    order: for months m1, m2 in 1..12, mkMonthKey year m1 sorts before,
    equal to or after mkMonthKey year m2 as m1 compares to m2. *)
Theorem month_keys_calendar_order (year m1 m2 : Z) :
  1 <= m1 <= 12 -> 1 <= m2 <= 12 ->
  localeCompare (mkMonthKey year m1) (mkMonthKey year m2) = Z.compare m1 m2.
Proof.
  intros H1 H2. unfold localeCompare, mkMonthKey. rewrite ShapeFacts.compare_app_same.
  assert (E1 : m1 = 1 \/ m1 = 2 \/ m1 = 3 \/ m1 = 4 \/ m1 = 5 \/ m1 = 6 \/ m1 = 7 \/
               m1 = 8 \/ m1 = 9 \/ m1 = 10 \/ m1 = 11 \/ m1 = 12) by lia.
  assert (E2 : m2 = 1 \/ m2 = 2 \/ m2 = 3 \/ m2 = 4 \/ m2 = 5 \/ m2 = 6 \/ m2 = 7 \/
               m2 = 8 \/ m2 = 9 \/ m2 = 10 \/ m2 = 11 \/ m2 = 12) by lia.
  repeat (destruct E1 as [->|E1]); [..|subst m1];
  repeat (destruct E2 as [->|E2]); try subst m2; vm_compute; reflexivity.
Qed.

Lemma month_keys_calendar_order_witness :
  localeCompare (mkMonthKey 2024 9) (mkMonthKey 2024 10) = Z.compare 9 10.
Proof. apply (month_keys_calendar_order 2024 9 10); lia. Defined.

End Batching.

